(** * Banking pipeline: server actions of the banking application

    A shallow embedding of the server actions in [lib/actions/dwolla.actions.ts],
    [lib/actions/user.actions.ts], [lib/actions/bank.actions.ts] and of the
    error-message selection in the auth form's submit handler.

    Every [async] function becomes a computation in the monad [M]: it threads
    a [World] (the calls issued to the external providers so far, the console,
    the cookie jar) and ends in a returned value, a thrown [JsError], or runs
    out of fuel (only the paging loop of [getTransactions] can).  The external
    providers (Appwrite, Plaid, Dwolla) are oracles collected in [Env]; each
    one answers from the history of calls and the request. *)

From Stdlib Require Import List String Ascii ZArith Lia Bool.
From Stdlib Require Import Sorting.Sorted Sorting.Permutation.
Import ListNotations.

Local Open Scope string_scope.
Local Open Scope list_scope.

(* ===================================================================== *)
(** ** JavaScript strings, errors and truthiness                          *)
(* ===================================================================== *)

Module Js.

(** [s.includes(needle)] *)
Fixpoint includes (s needle : string) {struct s} : bool :=
  String.prefix needle s
  || match s with
     | EmptyString => false
     | String _ s' => includes s' needle
     end.

Definition lower_ascii (c : ascii) : ascii :=
  let n := nat_of_ascii c in
  if (65 <=? n)%nat && (n <=? 90)%nat then ascii_of_nat (n + 32) else c.

(** [s.toLowerCase()], on the ASCII letters. *)
Fixpoint toLowerCase (s : string) : string :=
  match s with
  | EmptyString => EmptyString
  | String c s' => String (lower_ascii c) (toLowerCase s')
  end.

Fixpoint drop (n : nat) (s : string) : string :=
  match n, s with
  | O, _ => s
  | S _, EmptyString => EmptyString
  | S n', String _ s' => drop n' s'
  end.

(** [s.replace(pat, rep)] with a string pattern: the first occurrence only. *)
Fixpoint replace (s pat rep : string) {struct s} : string :=
  if String.prefix pat s then (rep ++ drop (String.length pat) s)%string
  else match s with
       | EmptyString => EmptyString
       | String c s' => String c (replace s' pat rep)
       end.

(** [parts.join(sep)] *)
Fixpoint join (sep : string) (parts : list string) : string :=
  match parts with
  | [] => ""
  | [p] => p
  | p :: rest => (p ++ sep ++ join sep rest)%string
  end.

(** A string-valued property that may be [undefined]; [""] and [undefined]
    are the falsy ones. *)
Definition truthy (s : option string) : option string :=
  match s with
  | Some "" => None
  | _ => s
  end.

(** [a || b] on possibly-undefined strings. *)
Definition or_else (a : option string) (b : string) : string :=
  match truthy a with
  | Some s => s
  | None => b
  end.

(** [!s] for a string. *)
Definition falsy (s : string) : bool :=
  match s with
  | EmptyString => true
  | _ => false
  end.

(** One entry of Dwolla's [_embedded.errors]. *)
Record FieldError := mkFieldError {
  fe_path : option string;
  fe_message : option string
}.

(** The value of [_embedded.errors] when it is truthy: an array or not. *)
Inductive EmbeddedErrors :=
| ErrorsArray (errs : list FieldError)
| ErrorsNotArray.

(** [err.response.body] of a Dwolla failure. *)
Record DwollaErrorBody := mkDwollaErrorBody {
  embedded_errors : option EmbeddedErrors;
  body_message : option string
}.

(** [error.response.data] of a Plaid failure. *)
Record PlaidErrorData := mkPlaidErrorData {
  error_code : option string;
  error_message : option string
}.

Record ErrorResponse := mkErrorResponse {
  status : option Z;
  data : option PlaidErrorData;
  body : option DwollaErrorBody
}.

(** A thrown value, with the properties the catch blocks read. *)
Record JsError := mkJsError {
  message : option string;
  code : option Z;
  response : option ErrorResponse
}.

(** [new Error(msg)] *)
Definition Error (msg : string) : JsError := mkJsError (Some msg) None None.

(** A [TypeError] raised by the runtime (property of [undefined], ...). *)
Definition TypeError (msg : string) : JsError := mkJsError (Some msg) None None.

(** [throw Error]: the constructor itself is thrown; it has no [message]. *)
Definition ErrorConstructor : JsError := mkJsError None None None.

(** [array.sort(compare)].  The sort is stable; for a comparator that is a
    consistent ordering its result is the one stable sorted arrangement,
    computed here by insertion from the right. *)
Fixpoint insert {A : Type} (compare : A -> A -> Z) (x : A) (l : list A) : list A :=
  match l with
  | [] => [x]
  | y :: l' =>
      if (compare x y <=? 0)%Z then x :: y :: l'
      else y :: insert compare x l'
  end.

Definition sort {A : Type} (compare : A -> A -> Z) (l : list A) : list A :=
  fold_right (insert compare) [] l.

(** Modelled from the spec: [parseStringify] of [lib/utils], which is not
    among the sources.  The specification treats what the actions return as
    plain values handed to the caller; the copy it makes of such a value is
    the value, so it is the identity on the data modelled here. *)
Definition parseStringify {A : Type} (value : A) : A := value.

End Js.

Import Js.

(* ===================================================================== *)
(** ** Provider data                                                      *)
(* ===================================================================== *)

(** *** Appwrite *)

Record Session := mkSession {
  session_id : string;         (* $id *)
  session_userId : string;
  session_secret : string
}.

Record AppwriteUser := mkAppwriteUser {
  au_id : string;              (* $id *)
  au_email : string
}.

(** The sign-up form data without the password ([...userData]). *)
Record UserData := mkUserData {
  email : string;
  firstName : string;
  lastName : string;
  address1 : string;
  city : string;
  state : string;
  postalCode : string;
  dateOfBirth : string;
  ssn : string
}.

(** The payload of the profile document. *)
Record UserDocData := mkUserDocData {
  ud_userData : UserData;
  ud_userId : string;
  ud_dwollaCustomerId : string;
  ud_dwollaCustomerUrl : string
}.

Record UserDoc := mkUserDoc {
  user_id : string;            (* $id *)
  user_data : UserDocData
}.

Record BankDocData := mkBankDocData {
  bd_userId : string;
  bd_bankId : string;
  bd_accountId : string;
  bd_accessToken : string;
  bd_fundingSourceUrl : string;
  bd_shareableId : string
}.

Record Bank := mkBank {
  bank_id : string;            (* $id *)
  bank_data : BankDocData
}.

Definition accessToken (b : Bank) : string := bd_accessToken (bank_data b).
Definition bank_shareableId (b : Bank) : string := bd_shareableId (bank_data b).

(** A transfer document of the transaction collection. *)
Record TransferDoc := mkTransferDoc {
  td_id : string;              (* $id *)
  td_name : string;
  td_amount : string;
  td_createdAt : string;       (* $createdAt *)
  td_channel : string;
  td_category : string;
  td_senderBankId : string;
  td_receiverBankId : string
}.

(** *** Plaid *)

(** Balances and amounts are JavaScript numbers; they are integers here
    (minor units). *)
Record PlaidAccount := mkPlaidAccount {
  account_id : string;
  balances_available : Z;
  balances_current : Z;
  acc_name : string;
  official_name : option string;
  acc_mask : string;
  acc_type : string;
  acc_subtype : string
}.

Record AccountsGetResponse := mkAccountsGetResponse {
  accounts : list PlaidAccount;
  item_institution_id : option string
}.

Record Institution := mkInstitution {
  institution_id : string;
  inst_name : string
}.

Record PlaidTransaction := mkPlaidTransaction {
  transaction_id : string;
  pt_name : string;
  payment_channel : string;
  pt_account_id : string;
  pt_amount : Z;
  pt_pending : bool;
  pt_category : option (list string);
  pt_date : string;
  logo_url : option string
}.

Record TransactionsSyncResponse := mkTransactionsSyncResponse {
  added : option (list PlaidTransaction);   (* [None]: missing or not an array *)
  next_cursor : string;
  has_more : bool
}.

Record TokenExchangeResponse := mkTokenExchangeResponse {
  access_token : string;
  item_id : string
}.

(** *** Dwolla *)

Record DwollaCustomerData := mkDwollaCustomerData {
  dc_firstName : string;
  dc_lastName : string;
  dc_email : string;
  dc_type : string;
  dc_address1 : string;
  dc_city : string;
  dc_state : string;
  dc_postalCode : string;
  dc_dateOfBirth : string;
  dc_ssn : string
}.

Inductive DwollaRequestBody :=
| NoBody
| CustomerBody (c : DwollaCustomerData)
| FundingSourceBody (name plaidToken : string)
| TransferBody (source destination amount : string).

(** What the actions read of a Dwolla response: the [location] header and
    [body._links] ([body] itself may be missing). *)
Record DwollaResponse := mkDwollaResponse {
  headers_location : option string;
  body_links : option (option string)
}.

(* ===================================================================== *)
(** ** The world, the providers and the monad                             *)
(* ===================================================================== *)

(** The calls that leave the process. *)
Inductive Call :=
| CreateAdminClient
| AccountCreate (email password name : string)
| AccountCreateEmailPasswordSession (email password : string)
| AccountGet
| AccountDeleteIdentity (id : string)
| AccountDeleteSession (id : string)
| ListUserDocuments (userId : string)
| ListBankDocuments (field value : string)
| CreateUserDocument (doc : UserDocData)
| CreateBankDocument (doc : BankDocData)
| GetTransactionsByBankId (bankId : string)
| PlaidAccountsGet (access_token : string)
| PlaidInstitutionsGetById (institution_id : option string)
| PlaidTransactionsSync (access_token cursor : string)
| PlaidItemPublicTokenExchange (public_token : string)
| PlaidProcessorTokenCreate (access_token account_id processor : string)
| DwollaPost (path : string) (body : DwollaRequestBody)
| RevalidatePath (path : string).

Record World := mkWorld {
  trace : list Call;                    (* oldest call first *)
  console : list string;                (* oldest line first *)
  cookieJar : list (string * string)    (* newest binding first *)
}.

Definition emptyWorld : World := mkWorld [] [] [].

(** The answer of a provider: a value, or a thrown error. *)
Inductive Result (A : Type) :=
| Ok (a : A)
| Err (e : JsError).
Arguments Ok {A} a.
Arguments Err {A} e.

(** The external collaborators.  Every remote call answers from the calls
    issued before it and its own arguments. *)
Record Env := mkEnv {
  (* process.env *)
  DWOLLA_KEY : option string;
  DWOLLA_SECRET : option string;
  DWOLLA_ENV : option string;
  (* [new Date(s).getTime()], on the well-formed date strings the providers
     send (Plaid's [YYYY-MM-DD], Appwrite's ISO [$createdAt]) *)
  Date_getTime : string -> Z;
  (* lib/utils and JSON *)
  encryptId : string -> string;
  extractCustomerIdFromUrl : string -> string;
  JSON_stringify : DwollaErrorBody -> string;
  JSON_parse : string -> option DwollaErrorBody;    (* [None]: SyntaxError *)
  (* lib/appwrite *)
  appwrite_createAdminClient : list Call -> Result unit;
  account_create : list Call -> string -> string -> string -> Result (option AppwriteUser);
  account_createEmailPasswordSession : list Call -> string -> string -> Result Session;
  account_get : list Call -> Result AppwriteUser;
  account_deleteIdentity : list Call -> string -> Result unit;
  account_deleteSession : list Call -> string -> Result unit;
  database_listUserDocuments : list Call -> string -> Result (list UserDoc);
  database_listBankDocuments : list Call -> string -> string -> Result (list Bank);
  database_createUserDocument : list Call -> UserDocData -> Result (option UserDoc);
  database_createBankDocument : list Call -> BankDocData -> Result Bank;
  (* transaction.actions *)
  transactions_byBankId : list Call -> string -> Result (list TransferDoc);
  (* lib/plaid *)
  plaid_accountsGet : list Call -> string -> Result AccountsGetResponse;
  plaid_institutionsGetById : list Call -> option string -> Result Institution;
  plaid_transactionsSync : list Call -> string -> string -> Result TransactionsSyncResponse;
  plaid_itemPublicTokenExchange : list Call -> string -> Result TokenExchangeResponse;
  plaid_processorTokenCreate : list Call -> string -> string -> string -> Result string;
  (* dwolla-v2 client *)
  dwolla_post : list Call -> string -> DwollaRequestBody -> Result DwollaResponse
}.

(** How a computation ends. *)
Inductive Outcome (A : Type) :=
| Return (a : A)
| Throw (e : JsError)
| OutOfFuel.
Arguments Return {A} a.
Arguments Throw {A} e.
Arguments OutOfFuel {A}.

Definition M (A : Type) : Type := World -> Outcome A * World.

Definition ret {A} (a : A) : M A := fun w => (Return a, w).

Definition bind {A B} (c : M A) (k : A -> M B) : M B :=
  fun w =>
    match c w with
    | (Return a, w') => k a w'
    | (Throw e, w') => (Throw e, w')
    | (OutOfFuel, w') => (OutOfFuel, w')
    end.

Definition throw {A} (e : JsError) : M A := fun w => (Throw e, w).

Definition diverge {A} : M A := fun w => (OutOfFuel, w).

(** [try { body } catch (error) { handler }] *)
Definition try_catch {A} (body : M A) (handler : JsError -> M A) : M A :=
  fun w =>
    match body w with
    | (Throw e, w') => handler e w'
    | r => r
    end.

Declare Scope js_scope.
Delimit Scope js_scope with js.
Notation "x <- c1 ;; c2" := (bind c1 (fun x => c2))
  (at level 61, c1 at next level, right associativity) : js_scope.
Notation "c1 ;; c2" := (bind c1 (fun _ => c2))
  (at level 61, right associativity) : js_scope.
Local Open Scope js_scope.

(** A remote call: recorded in the trace, answered by the oracle. *)
Definition invoke {A} (c : Call) (oracle : list Call -> Result A) : M A :=
  fun w =>
    let w' := mkWorld (trace w ++ [c]) (console w) (cookieJar w) in
    match oracle (trace w) with
    | Ok a => (Return a, w')
    | Err e => (Throw e, w')
    end.

(** [console.error(line, ...)] / [console.log(line, ...)]: the first argument
    is kept. *)
Definition console_error (line : string) : M unit :=
  fun w => (Return tt, mkWorld (trace w) (console w ++ [line]) (cookieJar w)).

Definition console_log (line : string) : M unit := console_error line.

(** [(await cookies()).set(name, value, ...)] *)
Definition cookies_set (name value : string) : M unit :=
  fun w => (Return tt, mkWorld (trace w) (console w) ((name, value) :: cookieJar w)).

Definition cookies_get (name : string) (w : World) : option string :=
  match find (fun kv => String.eqb (fst kv) name) (cookieJar w) with
  | Some kv => Some (snd kv)
  | None => None
  end.

(** Run every promise of the list to its end, in list order. *)
Fixpoint settleAll {A} (ps : list (M A)) : M (list (Outcome A)) :=
  match ps with
  | [] => ret []
  | p :: rest =>
      fun w =>
        let (o, w') := p w in
        match settleAll rest w' with
        | (Return os, w'') => (Return (o :: os), w'')
        | r => r
        end
  end.

(** The values when every promise fulfilled, else the first failure. *)
Fixpoint allFulfilled {A} (os : list (Outcome A)) : Outcome (list A) :=
  match os with
  | [] => Return []
  | Return a :: rest =>
      match allFulfilled rest with
      | Return l => Return (a :: l)
      | r => r
      end
  | Throw e :: _ => Throw e
  | OutOfFuel :: _ => OutOfFuel
  end.

(** [await Promise.all(promises)]: the callbacks all run; the result is the
    list of their values, in the order of the input, or a rejection as soon
    as one of them rejects. *)
Definition Promise_all {A} (ps : list (M A)) : M (list A) :=
  fun w =>
    match settleAll ps w with
    | (Return os, w') => (allFulfilled os, w')
    | (Throw e, w') => (Throw e, w')
    | (OutOfFuel, w') => (OutOfFuel, w')
    end.

(* ===================================================================== *)
(** ** lib/actions/dwolla.actions.ts                                      *)
(* ===================================================================== *)

Module DwollaActions.
Section WithEnv.
Variable env : Env.

Record CreateFundingSourceOptions := mkCreateFundingSourceOptions {
  customerId : string;
  fundingSourceName : string;
  plaidToken : string;
  _links : option string
}.

Definition post (path : string) (body : DwollaRequestBody) : M DwollaResponse :=
  invoke (DwollaPost path body) (fun h => dwolla_post env h path body).

(** Create a Dwolla funding source using a Plaid processor token. *)
Definition createFundingSource (options : CreateFundingSourceOptions)
  : M (option string) :=
  try_catch
    (res <- post ("customers/" ++ customerId options ++ "/funding-sources")%string
                 (FundingSourceBody (fundingSourceName options) (plaidToken options)) ;;
     ret (headers_location res))
    (fun err =>
       console_error "Creating a Funding Source Failed: " ;;
       ret None).

Definition createOnDemandAuthorization : M (option string) :=
  try_catch
    (onDemandAuthorization <- post "on-demand-authorizations" NoBody ;;
     match body_links onDemandAuthorization with
     | None => throw (TypeError "Cannot read properties of undefined (reading '_links')")
     | Some authLink => ret authLink
     end)
    (fun err =>
       console_error "Creating an On Demand Authorization Failed: " ;;
       ret None).

(** [e.path?.replace('/', '') || 'field'] *)
Definition fieldOf (e : FieldError) : string :=
  or_else (option_map (fun p => replace p "/" "") (fe_path e)) "field".

(** [`${field}: ${e.message}`] *)
Definition renderFieldError (e : FieldError) : string :=
  (fieldOf e ++ ": " ++ match fe_message e with
                        | Some m => m
                        | None => "undefined"
                        end)%string.

Definition validationErrors (errs : list FieldError) : string :=
  join ", " (map renderFieldError errs).

Record NewDwollaCustomerParams := mkNewDwollaCustomerParams {
  nc_userData : UserData;
  nc_type : string
}.

Definition env_missing (v : option string) : bool :=
  match truthy v with
  | Some _ => false
  | None => true
  end.

Definition createDwollaCustomer (newCustomer : NewDwollaCustomerParams)
  : M string :=
  try_catch
    ((if env_missing (DWOLLA_KEY env) || env_missing (DWOLLA_SECRET env)
      then throw (Error "Dwolla credentials are not configured. Please check your environment variables.")
      else ret tt) ;;
     (if env_missing (DWOLLA_ENV env)
      then throw (Error "Dwolla environment is not set. Please set DWOLLA_ENV to 'sandbox' or 'production'.")
      else ret tt) ;;
     let u := nc_userData newCustomer in
     let dwollaCustomerData :=
       mkDwollaCustomerData (firstName u) (lastName u) (email u)
         (nc_type newCustomer) (address1 u) (city u) (state u)
         (postalCode u) (dateOfBirth u) (ssn u) in
     console_log "Creating Dwolla customer with data:" ;;
     response <- post "customers" (CustomerBody dwollaCustomerData) ;;
     match truthy (headers_location response) with
     | None => throw (Error "Dwolla customer created but no location URL returned.")
     | Some location =>
         console_log "Dwolla customer created successfully:" ;;
         ret location
     end)
    (fun err =>
       console_error "Creating a Dwolla Customer Failed - Full Error:" ;;
       (* Parse Dwolla validation errors *)
       match option_map body (response err) with
       | Some (Some errorBody) =>
           match embedded_errors errorBody with
           | Some (ErrorsArray errs) =>
               throw (Error ("Validation error: " ++ validationErrors errs))
           | _ =>
               let errorMessage :=
                 or_else (body_message errorBody) (JSON_stringify env errorBody) in
               throw (Error ("Dwolla customer creation failed: " ++ errorMessage))
           end
       | _ =>
           (* Try to parse error message if it's a JSON string *)
           match truthy (message err) with
           | Some msg =>
               try_catch
                 (match JSON_parse env msg with
                  | None => throw (Error "Unexpected token in JSON")
                  | Some parsedError =>
                      match embedded_errors parsedError with
                      | Some (ErrorsArray errs) =>
                          throw (Error ("Validation error: " ++ validationErrors errs))
                      | Some ErrorsNotArray =>
                          throw (TypeError "parsedError._embedded.errors.map is not a function")
                      | None => ret tt
                      end
                  end)
                 (fun parseError => ret tt) ;;
               throw (Error ("Dwolla customer creation failed: " ++ msg))
           | None =>
               throw (Error "Dwolla customer creation failed. Please check your Dwolla credentials and try again.")
           end
       end).

Record TransferParams := mkTransferParams {
  sourceFundingSourceUrl : string;
  destinationFundingSourceUrl : string;
  amount : string
}.

Definition createTransfer (p : TransferParams) : M (option string) :=
  try_catch
    (let requestBody :=
       TransferBody (sourceFundingSourceUrl p) (destinationFundingSourceUrl p)
                    (amount p) in
     res <- post "transfers" requestBody ;;
     ret (headers_location res))
    (fun err =>
       console_error "Transfer fund failed: " ;;
       ret None).

Record AddFundingSourceParams := mkAddFundingSourceParams {
  dwollaCustomerId : string;
  processorToken : string;
  bankName : string
}.

Definition addFundingSource (p : AddFundingSourceParams) : M (option string) :=
  try_catch
    (dwollaAuthLinks <- createOnDemandAuthorization ;;
     let fundingSourceOptions :=
       mkCreateFundingSourceOptions (dwollaCustomerId p) (bankName p)
         (processorToken p) dwollaAuthLinks in
     createFundingSource fundingSourceOptions)
    (fun err =>
       console_error "Transfer fund failed: " ;;
       ret None).

End WithEnv.
End DwollaActions.

(* ===================================================================== *)
(** ** lib/actions/user.actions.ts                                        *)
(* ===================================================================== *)

Module UserActions.
Section WithEnv.
Variable env : Env.

Definition createAdminClient : M unit :=
  invoke CreateAdminClient (appwrite_createAdminClient env).

Definition getUserInfo (userId : string) : M (option UserDoc) :=
  try_catch
    (createAdminClient ;;
     user <- invoke (ListUserDocuments userId)
                    (fun h => database_listUserDocuments env h userId) ;;
     match user with
     | [] =>
         console_log "No user document found for userId: " ;;
         ret None
     | doc :: _ => ret (Some (parseStringify doc))
     end)
    (fun error =>
       console_error "Error in getUserInfo:" ;;
       ret None).

Definition PROFILE_DATA_MISSING_message : string :=
  "PROFILE_DATA_MISSING: Your account exists but profile data is missing. This may have occurred during sign-up. Please try signing up again or contact support.".

Definition invalid_credentials_message : string :=
  "Invalid email or password. Please try again.".

(** [error?.message?.includes(needle)] *)
Definition message_includes (error : JsError) (needle : string) : bool :=
  match message error with
  | Some m => includes m needle
  | None => false
  end.

Definition code_is (error : JsError) (n : Z) : bool :=
  match code error with
  | Some c => Z.eqb c n
  | None => false
  end.

(** The flag computed in the catch block of [signIn]. *)
Definition isInvalidCredentials (error : JsError) : bool :=
  let errorMessage :=
    match message error with
    | Some m => toLowerCase m
    | None => ""
    end in
  (includes errorMessage "invalid credentials" && negb (includes errorMessage "profile"))
  || (includes errorMessage "invalid password" && negb (includes errorMessage "profile"))
  || (includes errorMessage "wrong password" && negb (includes errorMessage "profile"))
  || (includes errorMessage "user not found" && negb (includes errorMessage "profile"))
  || (code_is error 401 && includes errorMessage "unauthorized"
      && negb (includes errorMessage "profile")).

(** The catch block of [signIn]: which error leaves the function. *)
Definition signIn_rethrow (error : JsError) : JsError :=
  if message_includes error "PROFILE_DATA_MISSING" then error
  else if isInvalidCredentials error then Error invalid_credentials_message
  else error.

Definition signIn (email password : string) : M UserDoc :=
  try_catch
    (createAdminClient ;;
     session <- invoke (AccountCreateEmailPasswordSession email password)
                  (fun h => account_createEmailPasswordSession env h email password) ;;
     cookies_set "appwrite-session" (session_secret session) ;;
     user <- getUserInfo (session_userId session) ;;
     match user with
     | None =>
         (* Get account info to help debug *)
         try_catch
           (accountInfo <- invoke AccountGet (account_get env) ;;
            console_error "User document missing for userId: ")
           (fun accountError => console_error "Error getting account info:") ;;
         throw (Error PROFILE_DATA_MISSING_message)
     | Some user => ret (parseStringify user)
     end)
    (fun error =>
       console_error "Sign in error details:" ;;
       throw (signIn_rethrow error)).

Definition already_exists_message : string :=
  "An account with this email already exists. Please sign in instead.".

Definition personal (userData : UserData) : DwollaActions.NewDwollaCustomerParams :=
  DwollaActions.mkNewDwollaCustomerParams userData "personal".

Definition deleteIdentity (id : string) : M unit :=
  invoke (AccountDeleteIdentity id) (fun h => account_deleteIdentity env h id).

Definition createUserDocument (doc : UserDocData) : M (option UserDoc) :=
  invoke (CreateUserDocument doc) (fun h => database_createUserDocument env h doc).

Definition createEmailPasswordSession (email password : string) : M Session :=
  invoke (AccountCreateEmailPasswordSession email password)
         (fun h => account_createEmailPasswordSession env h email password).

(** The recovery attempt in the catch block of [signUp]; [Some user] when it
    returns the recovered user, [None] when control falls out of the inner
    [try]. *)
Definition signUp_recover (password : string) (userData : UserData)
  : M (option UserDoc) :=
  try_catch
    (createAdminClient ;;
     existingUserId <-
       try_catch
         (testSession <- createEmailPasswordSession (email userData) password ;;
          (* Delete the test session *)
          invoke (AccountDeleteSession (session_id testSession))
                 (fun h => account_deleteSession env h (session_id testSession)) ;;
          ret (session_userId testSession))
         (fun sessionError => throw (Error already_exists_message)) ;;
     if falsy existingUserId then ret None
     else
       existingUser <- getUserInfo existingUserId ;;
       match existingUser with
       | None =>
           console_log "Recovering: Creating missing database document for existing account" ;;
           dwollaCustomerUrl <- DwollaActions.createDwollaCustomer env (personal userData) ;;
           (if falsy dwollaCustomerUrl
            then throw (Error "Error creating Dwolla customer. Please try again.")
            else ret tt) ;;
           let dwollaCustomerId := extractCustomerIdFromUrl env dwollaCustomerUrl in
           recoveredUser <-
             createUserDocument
               (mkUserDocData userData existingUserId dwollaCustomerId dwollaCustomerUrl) ;;
           match recoveredUser with
           | Some recovered =>
               session <- createEmailPasswordSession (email userData) password ;;
               cookies_set "appwrite-session" (session_secret session) ;;
               ret (Some (parseStringify recovered))
           | None => ret None
           end
       | Some _ => throw (Error already_exists_message)
       end)
    (fun recoveryError =>
       match message recoveryError with
       | None => throw (TypeError "Cannot read properties of undefined (reading 'includes')")
       | Some m =>
           if includes m "already exists" then throw recoveryError
           else throw (Error already_exists_message)
       end).

Definition signUp (password : string) (userData : UserData) : M UserDoc :=
  try_catch
    (createAdminClient ;;
     newUserAccount <-
       invoke (AccountCreate (email userData) password
                 (firstName userData ++ " " ++ lastName userData)%string)
              (fun h => account_create env h (email userData) password
                          (firstName userData ++ " " ++ lastName userData)%string) ;;
     match newUserAccount with
     | None => throw (Error "Error creating user account")
     | Some newUserAccount =>
         dwollaCustomerUrl <- DwollaActions.createDwollaCustomer env (personal userData) ;;
         (if falsy dwollaCustomerUrl
          then
            (* Clean up: delete the Appwrite account if Dwolla fails *)
            try_catch
              (deleteIdentity (au_id newUserAccount))
              (fun cleanupError => console_error "Failed to cleanup account:") ;;
            throw (Error "Error creating Dwolla customer. Please try again.")
          else ret tt) ;;
         let dwollaCustomerId := extractCustomerIdFromUrl env dwollaCustomerUrl in
         newUser <-
           createUserDocument
             (mkUserDocData userData (au_id newUserAccount) dwollaCustomerId
                dwollaCustomerUrl) ;;
         match newUser with
         | None =>
             (* Clean up: delete the Appwrite account if database creation fails *)
             try_catch
               (deleteIdentity (au_id newUserAccount))
               (fun cleanupError => console_error "Failed to cleanup account:") ;;
             throw (Error "Error creating user profile. Please try again.")
         | Some newUser =>
             session <- createEmailPasswordSession (email userData) password ;;
             cookies_set "appwrite-session" (session_secret session) ;;
             ret (parseStringify newUser)
         end
     end)
    (fun error =>
       console_error "Sign up error:" ;;
       (* Handle case where account exists but database document is missing *)
       if message_includes error "already exists"
          || message_includes error "already registered"
          || code_is error 409
       then
         recovered <- signUp_recover password userData ;;
         match recovered with
         | Some user => ret user
         | None => throw (Error already_exists_message)
         end
       else
         (* Re-throw the error so it can be caught and displayed *)
         throw error).

Definition createBankAccount (doc : BankDocData) : M (option Bank) :=
  try_catch
    (createAdminClient ;;
     bankAccount <- invoke (CreateBankDocument doc)
                      (fun h => database_createBankDocument env h doc) ;;
     ret (Some (parseStringify bankAccount)))
    (fun error =>
       console_log (or_else (message error) "undefined") ;;
       ret None).

(** The fields of the signed-in user that [exchangePublicToken] reads. *)
Record LinkUser := mkLinkUser {
  lu_id : string;                 (* $id *)
  lu_dwollaCustomerId : string
}.

Definition exchangePublicToken (publicToken : string) (user : LinkUser)
  : M (option string) :=
  try_catch
    ((* Exchange public token for access token and item ID *)
     response <- invoke (PlaidItemPublicTokenExchange publicToken)
                   (fun h => plaid_itemPublicTokenExchange env h publicToken) ;;
     let accessToken := access_token response in
     let itemId := item_id response in
     (* Get account information from Plaid using the access token *)
     accountsResponse <- invoke (PlaidAccountsGet accessToken)
                           (fun h => plaid_accountsGet env h accessToken) ;;
     match accounts accountsResponse with
     | [] => throw (TypeError "Cannot read properties of undefined (reading 'account_id')")
     | accountData :: _ =>
         (* Create a processor token for Dwolla *)
         processorToken <-
           invoke (PlaidProcessorTokenCreate accessToken (account_id accountData) "dwolla")
                  (fun h => plaid_processorTokenCreate env h accessToken
                              (account_id accountData) "dwolla") ;;
         (* Create a funding source URL for the account *)
         fundingSourceUrl <-
           DwollaActions.addFundingSource env
             (DwollaActions.mkAddFundingSourceParams (lu_dwollaCustomerId user)
                processorToken (acc_name accountData)) ;;
         (* If the funding source URL is not created, throw an error *)
         match truthy fundingSourceUrl with
         | None => throw ErrorConstructor
         | Some fundingSourceUrl =>
             createBankAccount
               (mkBankDocData (lu_id user) itemId (account_id accountData)
                  accessToken fundingSourceUrl
                  (encryptId env (account_id accountData))) ;;
             (* Revalidate the path to reflect the changes *)
             invoke (RevalidatePath "/") (fun _ => Ok tt) ;;
             ret (Some (parseStringify "complete"))
         end
     end)
    (fun error =>
       console_error "An error occurred while creating exchanging token:" ;;
       ret None).

Definition getBanks (userId : string) : M (option (list Bank)) :=
  try_catch
    (createAdminClient ;;
     banks <- invoke (ListBankDocuments "userId" userId)
                (fun h => database_listBankDocuments env h "userId" userId) ;;
     ret (Some (parseStringify banks)))
    (fun error =>
       console_log (or_else (message error) "undefined") ;;
       ret None).

Definition getBank (documentId : string) : M (option Bank) :=
  try_catch
    (createAdminClient ;;
     bank <- invoke (ListBankDocuments "$id" documentId)
               (fun h => database_listBankDocuments env h "$id" documentId) ;;
     match bank with
     | [] => ret None
     | doc :: _ => ret (Some (parseStringify doc))
     end)
    (fun error =>
       console_error "Error getting bank:" ;;
       ret None).

End WithEnv.
End UserActions.

(* ===================================================================== *)
(** ** lib/actions/bank.actions.ts                                        *)
(* ===================================================================== *)

Module BankActions.

Record Account := mkAccount {
  id : string;
  availableBalance : Z;
  currentBalance : Z;
  institutionId : string;
  name : string;
  officialName : option string;
  mask : string;
  type : string;
  subtype : string;
  appwriteItemId : string;
  shareableId : option string      (* absent in the result of [getAccount] *)
}.

Record AccountsResult := mkAccountsResult {
  data : list Account;
  totalBanks : nat;
  totalCurrentBalance : Z
}.

(** A provider transaction in the common shape. *)
Record Transaction := mkTransaction {
  tx_id : string;
  tx_name : string;
  tx_paymentChannel : string;
  tx_type : string;
  tx_accountId : string;
  tx_amount : Z;
  tx_pending : bool;
  tx_category : option string;
  tx_date : string;
  tx_image : option string
}.

(** A transfer document in the shape of the feed. *)
Record TransferTransaction := mkTransferTransaction {
  tr_id : string;
  tr_name : string;
  tr_amount : string;
  tr_date : string;
  tr_paymentChannel : string;
  tr_category : string;
  tr_type : string
}.

(** An entry of the merged feed. *)
Inductive FeedEntry :=
| Provider (t : Transaction)
| Transfer (t : TransferTransaction).

Definition date (e : FeedEntry) : string :=
  match e with
  | Provider t => tx_date t
  | Transfer t => tr_date t
  end.

Record AccountResult := mkAccountResult {
  ar_data : Account;
  ar_transactions : list FeedEntry
}.

(** The mapping applied to every entry of [data.added]. *)
Definition normalize (transaction : PlaidTransaction) : Transaction :=
  mkTransaction
    (transaction_id transaction)
    (pt_name transaction)
    (payment_channel transaction)
    (payment_channel transaction)
    (pt_account_id transaction)
    (pt_amount transaction)
    (pt_pending transaction)
    (match pt_category transaction with
     | Some cats => hd_error cats
     | None => Some ""
     end)
    (pt_date transaction)
    (logo_url transaction).

(** The object [account] built from the answers of Plaid. *)
Definition accountOf (accountData : PlaidAccount) (institution : Institution)
    (appwriteItemId : string) (shareableId : option string) : Account :=
  mkAccount
    (account_id accountData)
    (balances_available accountData)
    (balances_current accountData)
    (institution_id institution)
    (acc_name accountData)
    (official_name accountData)
    (acc_mask accountData)
    (acc_type accountData)
    (acc_subtype accountData)
    appwriteItemId
    shareableId.

Section WithEnv.
Variable env : Env.

(** [new Date(b.date).getTime() - new Date(a.date).getTime()] *)
Definition byDateDescending (a b : FeedEntry) : Z :=
  (Date_getTime env (date b) - Date_getTime env (date a))%Z.

(** The merge at the end of [getAccount]. *)
Definition allTransactions (transactions : list Transaction)
    (transferTransactions : list TransferTransaction) : list FeedEntry :=
  sort byDateDescending
       (List.map Provider transactions ++ List.map Transfer transferTransactions).

(** Get bank info *)
Definition getInstitution (institutionId : option string) : M (option Institution) :=
  try_catch
    (intitution <- invoke (PlaidInstitutionsGetById institutionId)
                     (fun h => plaid_institutionsGetById env h institutionId) ;;
     ret (Some (parseStringify intitution)))
    (fun error =>
       console_error "An error occurred while getting the accounts:" ;;
       ret None).

(** The [while (hasMore)] loop of [getTransactions], entered with
    [hasMore = true]; one unit of fuel per page. *)
Fixpoint syncLoop (fuel : nat) (accessToken : string) (cursor : option string)
    (transactions : list Transaction) : M (list Transaction) :=
  match fuel with
  | O => diverge
  | S fuel' =>
      let requestParams_cursor :=
        match cursor with
        | Some c => c
        | None => ""     (* First call - use empty string for initial sync *)
        end in
      response <- invoke (PlaidTransactionsSync accessToken requestParams_cursor)
                    (fun h => plaid_transactionsSync env h accessToken
                                requestParams_cursor) ;;
      (* Update cursor for next iteration *)
      let cursor := Some (next_cursor response) in
      transactions <-
        match added response with
        | Some entries => ret (transactions ++ List.map normalize entries)
        | None =>
            console_error "Error: response data.added is not an array" ;;
            ret transactions
        end ;;
      if has_more response
      then syncLoop fuel' accessToken cursor transactions
      else ret transactions
  end.

(** The catch block of [getTransactions]. *)
Definition getTransactions_catch (error : JsError) : M (list Transaction) :=
  console_error "An error occurred while getting transactions:" ;;
  (* Log detailed Plaid error if available *)
  match option_map Js.data (response error) with
  | Some (Some plaidError) => console_error "Plaid API error details:"
  | _ => ret tt
  end ;;
  (* If it's a 400 error, the access token might be invalid or expired *)
  match option_map status (response error) with
  | Some (Some 400%Z) =>
      let plaidData :=
        match option_map Js.data (response error) with
        | Some (Some d) => Some d
        | _ => None
        end in
      let errorMessage :=
        or_else (match plaidData with
                 | Some d => error_message d
                 | None => None
                 end)
                (or_else (message error) "Unknown error") in
      let errorCode :=
        match plaidData with
        | Some d => error_code d
        | None => None
        end in
      console_error ("Plaid API 400 error: " ++ errorMessage) ;;
      if includes errorMessage "INVALID_ACCESS_TOKEN"
         || includes errorMessage "ITEM_LOGIN_REQUIRED"
      then
        console_error "Access token is invalid or expired. User needs to re-link their bank account." ;;
        ret (parseStringify [])
      else if match errorCode with
              | Some c => String.eqb c "ADDITIONAL_CONSENT_REQUIRED"
              | None => false
              end
              || includes errorMessage "PRODUCT_TRANSACTIONS"
      then
        console_error "Bank account was linked without transactions consent. User needs to re-link the account with transactions product enabled." ;;
        (* Return empty array but log a clear message *)
        ret (parseStringify [])
      else ret (parseStringify [])
  | _ => ret (parseStringify [])
  end.

(** Get transactions *)
Definition getTransactions (fuel : nat) (accessToken : string)
  : M (list Transaction) :=
  try_catch
    ((* Validate access token *)
     if falsy accessToken
     then
       console_error "Access token is missing" ;;
       ret (parseStringify [])
     else
       (* Iterate through each page of new transaction updates for item *)
       transactions <- syncLoop fuel accessToken None [] ;;
       ret (parseStringify transactions))
    getTransactions_catch.

(** The callback mapped over the banks in [getAccounts]. *)
Definition accountOfBank (bank : Bank) : M Account :=
  (* get each account info from plaid *)
  accountsResponse <- invoke (PlaidAccountsGet (accessToken bank))
                        (fun h => plaid_accountsGet env h (accessToken bank)) ;;
  (* get institution info from plaid *)
  institution <- getInstitution (item_institution_id accountsResponse) ;;
  match accounts accountsResponse with
  | [] => throw (TypeError "Cannot read properties of undefined (reading 'account_id')")
  | accountData :: _ =>
      match institution with
      | None => throw (TypeError "Cannot read properties of undefined (reading 'institution_id')")
      | Some institution =>
          ret (accountOf accountData institution (bank_id bank)
                 (Some (bank_shareableId bank)))
      end
  end.

(** Get multiple bank accounts *)
Definition getAccounts (userId : string) : M (option AccountsResult) :=
  try_catch
    ((* get banks from db *)
     banks <- UserActions.getBanks env userId ;;
     accounts <-
       match banks with
       | None => throw (TypeError "undefined is not iterable")
       | Some banks => Promise_all (List.map accountOfBank banks)
       end ;;
     let totalBanks := List.length accounts in
     let totalCurrentBalance :=
       fold_left (fun total account => (total + currentBalance account)%Z)
                 accounts 0%Z in
     ret (Some (parseStringify (mkAccountsResult accounts totalBanks totalCurrentBalance))))
    (fun error =>
       console_error "An error occurred while getting the accounts:" ;;
       ret None).

Definition transferOf (bank : Bank) (transferData : TransferDoc)
  : TransferTransaction :=
  mkTransferTransaction
    (td_id transferData)
    (td_name transferData)
    (td_amount transferData)
    (td_createdAt transferData)
    (td_channel transferData)
    (td_category transferData)
    (if String.eqb (td_senderBankId transferData) (bank_id bank)
     then "debit" else "credit").

(** Get one bank account; [None] stands for both [null] and [undefined]. *)
Definition getAccount (fuel : nat) (appwriteItemId : string)
  : M (option AccountResult) :=
  try_catch
    ((* get bank from db *)
     bank <- UserActions.getBank env appwriteItemId ;;
     match bank with
     | None =>
         console_error "Bank account not found for appwriteItemId: " ;;
         ret None
     | Some bank =>
         console_log "Bank Data:" ;;
         if falsy (accessToken bank)
         then
           console_error "Bank account missing accessToken" ;;
           ret None
         else
           (* get account info from plaid *)
           accountsResponse <- invoke (PlaidAccountsGet (accessToken bank))
                                 (fun h => plaid_accountsGet env h (accessToken bank)) ;;
           console_log "Plaid Accounts Response:" ;;
           (* get transfer transactions from appwrite *)
           transferTransactionsData <-
             invoke (GetTransactionsByBankId (bank_id bank))
                    (fun h => transactions_byBankId env h (bank_id bank)) ;;
           let transferTransactions :=
             List.map (transferOf bank) transferTransactionsData in
           (* get institution info from plaid *)
           institution <- getInstitution (item_institution_id accountsResponse) ;;
           transactions <- getTransactions fuel (accessToken bank) ;;
           match accounts accountsResponse with
           | [] => throw (TypeError "Cannot read properties of undefined (reading 'account_id')")
           | accountData :: _ =>
               match institution with
               | None => throw (TypeError "Cannot read properties of undefined (reading 'institution_id')")
               | Some institution =>
                   let account :=
                     accountOf accountData institution (bank_id bank) None in
                   (* sort transactions by date such that the most recent
                      transaction is first *)
                   ret (Some (parseStringify
                                (mkAccountResult account
                                   (allTransactions transactions transferTransactions))))
               end
           end
     end)
    (fun error =>
       console_error "An error occurred while getting the account:" ;;
       ret None).

End WithEnv.
End BankActions.

(* ===================================================================== *)
(** ** components/AuthForm.tsx: the message shown for a failed submit     *)
(* ===================================================================== *)

Module AuthForm.

(** The branch of the [if] chain in the catch block of [onSubmit]. *)
Inductive ErrorKind :=
| NoMessage
| ProfileDataMissing
| AccountAlreadyExists
| UserNotFound
| InvalidCredentials
| StateValidation
| ValidationError (detail : string)
| Unknown (originalMessage : string).

Definition classify (error : JsError) : ErrorKind :=
  match truthy (message error) with
  | None => NoMessage
  | Some message =>
      let msg := toLowerCase message in
      (* Check for specific error patterns in order of specificity *)
      if includes msg "profile_data_missing"
         || includes msg "profile data is missing"
         || includes msg "profile data"
      then ProfileDataMissing
      else if includes msg "already exists" || includes msg "already registered"
      then AccountAlreadyExists
      else if includes msg "user not found" || includes msg "no account found"
      then UserNotFound
      else if (includes msg "invalid credentials"
               || includes msg "invalid password"
               || includes msg "wrong password"
               || (UserActions.code_is error 401 && includes msg "unauthorized"))
              && negb (includes msg "profile")
      then InvalidCredentials
      else if includes msg "validation error" || includes msg "dwolla"
      then
        (* Extract Dwolla validation errors *)
        if includes msg "state" then StateValidation
        else
          ValidationError
            (replace (replace message "Dwolla customer creation failed: " "")
                     "Validation error: " "")
      else
        (* Use the original error message if it doesn't match any pattern *)
        Unknown (replace message "PROFILE_DATA_MISSING: " "")
  end.

(** The value [errorMessage] has when the branch ends. *)
Definition errorMessageOf (k : ErrorKind) : string :=
  match k with
  | NoMessage => "An error occurred. Please try again."
  | ProfileDataMissing =>
      "Your account exists but profile data is missing. This may have occurred during sign-up. Please try signing up again with the same email, or contact support if the issue persists."
  | AccountAlreadyExists =>
      "An account with this email already exists. Please sign in instead."
  | UserNotFound => "No account found with this email. Please sign up first."
  | InvalidCredentials => "Invalid email or password. Please try again."
  | StateValidation =>
      "State must be a valid 2-letter US state code (e.g., CA, NY, TX). Please use a US state abbreviation."
  | ValidationError detail => detail
  | Unknown originalMessage => originalMessage
  end.

(** The message set on the form's root error. *)
Definition onSubmit_errorMessage (error : JsError) : string :=
  errorMessageOf (classify error).

End AuthForm.

(* ===================================================================== *)
(** ** lib/actions/user.actions.ts: the session of the signed-in user     *)
(* ===================================================================== *)

(** What these actions need beyond [Env]: the session client of
    [lib/appwrite], built from the request's cookie, and Plaid's link-token
    endpoint.  Neither is recorded in the trace. *)
Record SessionEnv := mkSessionEnv {
  appwrite_createSessionClient : list Call -> Result unit;
  plaid_linkTokenCreate : list Call -> string -> string -> Result string
}.

(** A call answered by the oracle and not recorded. *)
Definition consult {A} (oracle : list Call -> Result A) : M A :=
  fun w =>
    match oracle (trace w) with
    | Ok a => (Return a, w)
    | Err e => (Throw e, w)
    end.

(** [(await cookies()).delete(name)] *)
Definition cookies_delete (name : string) : M unit :=
  fun w =>
    (Return tt,
     mkWorld (trace w) (console w)
       (filter (fun kv => negb (String.eqb (fst kv) name)) (cookieJar w))).

Module SessionActions.
Section WithEnv.
Variable env : Env.
Variable senv : SessionEnv.

Definition createSessionClient : M unit :=
  consult (appwrite_createSessionClient senv).

Definition getLoggedInUser : M (option UserDoc) :=
  try_catch
    (createSessionClient ;;
     result <- invoke AccountGet (account_get env) ;;
     user <- UserActions.getUserInfo env (au_id result) ;;
     ret (parseStringify user))
    (fun error =>
       console_log (or_else (message error) "undefined") ;;
       ret None).

Definition logoutAccount : M unit :=
  try_catch
    (createSessionClient ;;
     cookies_delete "appwrite-session" ;;
     invoke (AccountDeleteSession "current")
            (fun h => account_deleteSession env h "current"))
    (fun _ =>
       (* Error handling - ignore *)
       ret tt).

Definition createLinkToken (user : UserDoc) : M (option string) :=
  try_catch
    (let u := ud_userData (user_data user) in
     link_token <-
       consult (fun h => plaid_linkTokenCreate senv h (user_id user)
                           (firstName u ++ " " ++ lastName u)%string) ;;
     ret (Some (parseStringify link_token)))
    (fun error =>
       console_log (or_else (message error) "undefined") ;;
       ret None).

End WithEnv.
End SessionActions.

(* ===================================================================== *)
(** ** app/(root)/transaction-history/page.tsx                            *)
(* ===================================================================== *)

Module TransactionHistoryPage.

(** The index an argument of [slice] stands for, in an array of [len]
    elements: a negative one counts from the end. *)
Definition relativeIndex (len : nat) (i : Z) : nat :=
  if (i <? 0)%Z then Z.to_nat (Z.max (Z.of_nat len + i) 0)
  else Nat.min (Z.to_nat i) len.

(** [array.slice(start, end)] *)
Definition slice {A : Type} (l : list A) (start finish : Z) : list A :=
  let k := relativeIndex (List.length l) start in
  let final := relativeIndex (List.length l) finish in
  firstn (final - k) (skipn k l).

Definition rowsPerPage : Z := 10.

(** [Number(page) || 1]; [page] is the number read from the query, [None]
    when there is none ([NaN]).  Page numbers are integers here. *)
Definition currentPageOf (page : option Z) : Z :=
  match page with
  | None => 1
  | Some 0%Z => 1
  | Some n => n
  end.

(** [Math.ceil(transactions.length / rowsPerPage)] *)
Definition totalPagesOf {A : Type} (transactions : list A) : Z :=
  ((Z.of_nat (List.length transactions) + rowsPerPage - 1) / rowsPerPage)%Z.

Definition currentTransactionsOf {A : Type} (transactions : list A)
    (currentPage : Z) : list A :=
  let indexOfLastTransaction := (currentPage * rowsPerPage)%Z in
  let indexOfFirstTransaction := (indexOfLastTransaction - rowsPerPage)%Z in
  slice transactions indexOfFirstTransaction indexOfLastTransaction.

(** What the page renders. *)
Inductive View :=
| Nothing                      (* [return;] *)
| NoAccountSelected
| NoAccountFound
| History (account : BankActions.Account)
          (currentTransactions : list BankActions.FeedEntry)
          (pagination : option (Z * Z)).   (* [totalPages], [page] *)

Section WithEnv.
Variable env : Env.
Variable senv : SessionEnv.

Definition TransactionHistory (fuel : nat) (id : option string) (page : option Z)
  : M View :=
  let currentPage := currentPageOf page in
  loggedIn <- SessionActions.getLoggedInUser env senv ;;
  match loggedIn with
  | None => throw (TypeError "Cannot read properties of null (reading '$id')")
  | Some loggedIn =>
      accounts <- BankActions.getAccounts env (user_id loggedIn) ;;
      match accounts with
      | None => ret Nothing
      | Some accounts =>
          let accountsData := BankActions.data accounts in
          let appwriteItemId :=
            match truthy id with
            | Some id => Some id
            | None => option_map BankActions.appwriteItemId (hd_error accountsData)
            end in
          match truthy appwriteItemId with
          | None => ret NoAccountSelected
          | Some appwriteItemId =>
              account <- BankActions.getAccount env fuel appwriteItemId ;;
              match account with
              | None => ret NoAccountFound
              | Some account =>
                  let transactions := BankActions.ar_transactions account in
                  let totalPages := totalPagesOf transactions in
                  ret (History (BankActions.ar_data account)
                         (currentTransactionsOf transactions currentPage)
                         (if (1 <? totalPages)%Z
                          then Some (totalPages, currentPage) else None))
              end
          end
      end
  end.

End WithEnv.
End TransactionHistoryPage.

(* ===================================================================== *)
(** ** Notions used in the statements                                     *)
(* ===================================================================== *)








(** The customer record sent to Dwolla for a new customer. *)
Definition customerDataOf (newCustomer : DwollaActions.NewDwollaCustomerParams)
  : DwollaCustomerData :=
  let u := DwollaActions.nc_userData newCustomer in
  mkDwollaCustomerData (firstName u) (lastName u) (email u)
    (DwollaActions.nc_type newCustomer) (address1 u) (city u) (state u)
    (postalCode u) (dateOfBirth u) (ssn u).

(** The test that sends the catch block of [signUp] into its recovery. *)
Definition alreadyExists (error : JsError) : bool :=
  UserActions.message_includes error "already exists"
  || UserActions.message_includes error "already registered"
  || UserActions.code_is error 409.

(** A call that creates a payment customer or a profile document. *)
Definition provisions (c : Call) : bool :=
  match c with
  | DwollaPost _ _ => true
  | CreateUserDocument _ => true
  | _ => false
  end.

(** A call to the bank-data provider or to the transfer records. *)
Definition readsBankData (c : Call) : bool :=
  match c with
  | PlaidAccountsGet _ => true
  | PlaidInstitutionsGetById _ => true
  | PlaidTransactionsSync _ _ => true
  | GetTransactionsByBankId _ => true
  | _ => false
  end.

(** The page numbers of a list of [n] pages. *)
Definition pageNumbers (n : Z) : list Z :=
  List.map (fun k => Z.of_nat (S k)) (seq 0 (Z.to_nat n)).

(** A call that deletes a principal. *)
Definition isDeletion (c : Call) : bool :=
  match c with
  | AccountDeleteIdentity _ => true
  | _ => false
  end.

(** The calls of a history that delete a principal. *)
Definition deletions (h : list Call) : list Call := filter isDeletion h.

(** A call of Plaid's transaction sync. *)
Definition isSync (c : Call) : bool :=
  match c with
  | PlaidTransactionsSync _ _ => true
  | _ => false
  end.

(** The number of sync calls issued so far. *)
Definition syncCalls (h : list Call) : nat := List.length (filter isSync h).

(** The provider serves [script] to the sync calls issued from the world [w]
    on, one answer per call, in order. *)
Definition serves (env : Env) (accessToken : string) (w : World)
    (script : list (Result TransactionsSyncResponse)) : Prop :=
  forall (h : list Call) (cursor : string) (k : nat)
         (answer : Result TransactionsSyncResponse),
    syncCalls h = (syncCalls (trace w) + k)%nat ->
    nth_error script k = Some answer ->
    plaid_transactionsSync env h accessToken cursor = answer.

(** The entries a page adds to the result. *)
Definition entriesOf (page : TransactionsSyncResponse) : list BankActions.Transaction :=
  match added page with
  | Some entries => List.map BankActions.normalize entries
  | None => []
  end.

(** The cursor sent with a request. *)
Definition requestCursor (cursor : option string) : string :=
  match cursor with
  | Some c => c
  | None => ""
  end.

(** The sync calls issued when [pages] are served and one more call follows. *)
Definition syncCallsFor (accessToken : string) (cursor : option string)
    (pages : list TransactionsSyncResponse) : list Call :=
  List.map (PlaidTransactionsSync accessToken)
           (requestCursor cursor :: List.map next_cursor pages).

(* ===================================================================== *)
(** ** Stub providers for the scenarios                                   *)
(* ===================================================================== *)

Module Scenario.

Definition offline : JsError := Error "fetch failed".

(** Reads the decimal digits of a date string: ["2024-01-05"] is 20240105.
    It orders dates of one format the way [getTime] does. *)
Fixpoint digitsValue (acc : Z) (s : string) : Z :=
  match s with
  | EmptyString => acc
  | String c s' =>
      let n := nat_of_ascii c in
      if (48 <=? n)%nat && (n <=? 57)%nat
      then digitsValue (acc * 10 + Z.of_nat (n - 48)) s'
      else digitsValue acc s'
  end.

(** A provider stub: Dwolla is configured, the pure helpers are fixed, the
    admin client can be created; the remaining answers are the arguments. *)
Definition stub
    (create : Result (option AppwriteUser))
    (createSession : Result Session)
    (userDocuments : list UserDoc)
    (bankDocuments : list Bank)
    (accountsGet : string -> Result AccountsGetResponse)
    (transactionsSync : list Call -> string -> string -> Result TransactionsSyncResponse)
    (tokenExchange : Result TokenExchangeResponse)
    (processorToken : Result string)
    (post : string -> DwollaRequestBody -> Result DwollaResponse) : Env :=
  {| DWOLLA_KEY := Some "key";
     DWOLLA_SECRET := Some "secret";
     DWOLLA_ENV := Some "sandbox";
     Date_getTime := digitsValue 0;
     encryptId := fun s => s;
     extractCustomerIdFromUrl := fun url => url;
     JSON_stringify := fun _ => "{}";
     JSON_parse := fun _ => None;
     appwrite_createAdminClient := fun _ => Ok tt;
     account_create := fun _ _ _ _ => create;
     account_createEmailPasswordSession := fun _ _ _ => createSession;
     account_get := fun _ => Err offline;
     account_deleteIdentity := fun _ _ => Ok tt;
     account_deleteSession := fun _ _ => Ok tt;
     database_listUserDocuments := fun _ _ => Ok userDocuments;
     database_listBankDocuments := fun _ _ _ => Ok bankDocuments;
     database_createUserDocument := fun _ _ => Err offline;
     database_createBankDocument := fun _ doc => Ok (mkBank "bank-doc" doc);
     transactions_byBankId := fun _ _ => Ok [];
     plaid_accountsGet := fun _ => accountsGet;
     plaid_institutionsGetById :=
       fun _ i => Ok (mkInstitution (or_else i "ins_0") "Institution");
     plaid_transactionsSync := transactionsSync;
     plaid_itemPublicTokenExchange := fun _ _ => tokenExchange;
     plaid_processorTokenCreate := fun _ _ _ _ => processorToken;
     dwolla_post := fun _ => post |}.

Definition noSync : list Call -> string -> string -> Result TransactionsSyncResponse :=
  fun _ _ _ => Err offline.

Definition noPost : string -> DwollaRequestBody -> Result DwollaResponse :=
  fun _ _ => Err offline.

(** *** Three linked banks; the live fetch of the second one fails *)

Definition bankOf (n : string) : Bank :=
  mkBank ("bank" ++ n)
    (mkBankDocData "user1" ("item" ++ n) ("acct" ++ n) ("token" ++ n)
       ("https://api.dwolla.com/funding-sources/" ++ n) ("share" ++ n)).

Definition threeBanks : list Bank := [bankOf "1"; bankOf "2"; bankOf "3"].

Definition plaidAccountOf (n : string) (balance : Z) : PlaidAccount :=
  mkPlaidAccount ("acct" ++ n) balance balance "Checking" None "0000"
    "depository" "checking".

Definition secondFetchFails (token : string) : Result AccountsGetResponse :=
  if String.eqb token "token1"
  then Ok (mkAccountsGetResponse [plaidAccountOf "1" 100] (Some "ins_1"))
  else if String.eqb token "token3"
  then Ok (mkAccountsGetResponse [plaidAccountOf "3" 250] (Some "ins_3"))
  else Err offline.

Definition allFetched (token : string) : Result AccountsGetResponse :=
  if String.eqb token "token2"
  then Ok (mkAccountsGetResponse [plaidAccountOf "2" 40] (Some "ins_2"))
  else secondFetchFails token.

Definition everyFetchSucceeds : Env :=
  stub (Err offline) (Err offline) [] threeBanks allFetched noSync
       (Err offline) (Err offline) noPost.


(** *** Correct credentials, no profile document *)

Definition aliceSession : Session := mkSession "session1" "principal1" "s3cr3t".

Definition profileMissing : Env :=
  stub (Err offline) (Ok aliceSession) [] [] (fun _ => Err offline) noSync
       (Err offline) (Err offline) noPost.

(** *** A sync stub that serves a script of answers, one per call *)

Definition scripted (script : list (Result TransactionsSyncResponse))
  : list Call -> string -> string -> Result TransactionsSyncResponse :=
  fun h _ _ => nth (syncCalls h) script (Err offline).

Definition purchase (n : string) (day : string) : PlaidTransaction :=
  mkPlaidTransaction ("tx" ++ n) ("Purchase " ++ n) "online" "acct1" 12 false
    (Some ["Shops"]) day None.

Definition page1 : TransactionsSyncResponse :=
  mkTransactionsSyncResponse (Some [purchase "1" "2024-01-05"; purchase "2" "2024-01-04"])
    "cursor1" true.



Definition syncOf (script : list (Result TransactionsSyncResponse)) : Env :=
  stub (Err offline) (Err offline) [] [] (fun _ => Err offline) (scripted script)
       (Err offline) (Err offline) noPost.



Definition plaidFailure (status : Z) (code msg : string) : JsError :=
  mkJsError (Some "Request failed with status code 400") None
    (Some (mkErrorResponse (Some status)
             (Some (mkPlaidErrorData (Some code) (Some msg))) None)).

Definition loginRequired : JsError :=
  plaidFailure 400 "ITEM_LOGIN_REQUIRED"
    "ITEM_LOGIN_REQUIRED: the login details of this item have changed".

Definition consentRequired : JsError :=
  plaidFailure 400 "ADDITIONAL_CONSENT_REQUIRED"
    "client does not have user consent to access the PRODUCT_TRANSACTIONS product".

(** *** The payment rail rejects the state of a new customer *)

Definition stateRejected : JsError :=
  mkJsError (Some "ValidationError") None
    (Some (mkErrorResponse (Some 400%Z) None
             (Some (mkDwollaErrorBody
                      (Some (ErrorsArray
                               [mkFieldError (Some "/state")
                                             (Some "must be a US state")]))
                      (Some "Validation error(s) present."))))).

Definition newUser : UserData :=
  mkUserData "a@x.com" "Ada" "Lovelace" "1 Main St" "Springfield" "ZZ"
    "12345" "1990-01-01" "1234".

Definition signUpRejected : Env :=
  stub (Ok (Some (mkAppwriteUser "principal1" "a@x.com"))) (Ok aliceSession)
       [] [] (fun _ => Err offline) noSync (Err offline) (Err offline)
       (fun _ _ => Err stateRejected).

(** The customer is created; the document store then refuses the profile
    document (the stub's store is out of reach). *)
Definition customerCreated : string -> DwollaRequestBody -> Result DwollaResponse :=
  fun _ _ => Ok (mkDwollaResponse (Some "https://api.dwolla.com/customers/c1") None).

Definition profileRefused : Env :=
  stub (Ok (Some (mkAppwriteUser "principal1" "a@x.com"))) (Ok aliceSession)
       [] [] (fun _ => Err offline) noSync (Err offline) (Err offline)
       customerCreated.

(** *** Linking a bank: one step of the sequence fails *)

Definition linkUser : UserActions.LinkUser :=
  UserActions.mkLinkUser "user1" "customer1".

Definition oneAccount : string -> Result AccountsGetResponse :=
  fun _ => Ok (mkAccountsGetResponse [plaidAccountOf "1" 100] (Some "ins_1")).

Definition exchanged : Result TokenExchangeResponse :=
  Ok (mkTokenExchangeResponse "token1" "item1").

Definition created : string -> DwollaRequestBody -> Result DwollaResponse :=
  fun _ _ => Ok (mkDwollaResponse (Some "https://api.dwolla.com/funding-sources/1")
                                  (Some (Some "links"))).

Definition exchangeFails : Env :=
  stub (Err offline) (Err offline) [] [] oneAccount noSync
       (Err offline) (Ok "processor1") created.

Definition accountFetchFails : Env :=
  stub (Err offline) (Err offline) [] [] (fun _ => Err offline) noSync
       exchanged (Ok "processor1") created.

Definition processorTokenFails : Env :=
  stub (Err offline) (Err offline) [] [] oneAccount noSync
       exchanged (Err offline) created.

Definition fundingSourceFails : Env :=
  stub (Err offline) (Err offline) [] [] oneAccount noSync
       exchanged (Ok "processor1") noPost.

Definition linkSucceeds : Env :=
  stub (Err offline) (Err offline) [] [] oneAccount noSync
       exchanged (Ok "processor1") created.

End Scenario.

(* ===================================================================== *)
(** ** More stub providers                                                *)
(* ===================================================================== *)

Module Stubs.


(** [JSON.parse] reads error messages as [parse] says. *)
Definition withJSONparse (parse : string -> option DwollaErrorBody) (e : Env) : Env :=
  {| DWOLLA_KEY := DWOLLA_KEY e;
     DWOLLA_SECRET := DWOLLA_SECRET e;
     DWOLLA_ENV := DWOLLA_ENV e;
     Date_getTime := Date_getTime e;
     encryptId := encryptId e;
     extractCustomerIdFromUrl := extractCustomerIdFromUrl e;
     JSON_stringify := JSON_stringify e;
     JSON_parse := parse;
     appwrite_createAdminClient := appwrite_createAdminClient e;
     account_create := account_create e;
     account_createEmailPasswordSession := account_createEmailPasswordSession e;
     account_get := account_get e;
     account_deleteIdentity := account_deleteIdentity e;
     account_deleteSession := account_deleteSession e;
     database_listUserDocuments := database_listUserDocuments e;
     database_listBankDocuments := database_listBankDocuments e;
     database_createUserDocument := database_createUserDocument e;
     database_createBankDocument := database_createBankDocument e;
     transactions_byBankId := transactions_byBankId e;
     plaid_accountsGet := plaid_accountsGet e;
     plaid_institutionsGetById := plaid_institutionsGetById e;
     plaid_transactionsSync := plaid_transactionsSync e;
     plaid_itemPublicTokenExchange := plaid_itemPublicTokenExchange e;
     plaid_processorTokenCreate := plaid_processorTokenCreate e;
     dwolla_post := dwolla_post e |}.

(** The document store answers the creation of a profile document. *)
Definition withCreateUserDocument (answer : UserDocData -> Result (option UserDoc)) (e : Env) : Env :=
  {| DWOLLA_KEY := DWOLLA_KEY e;
     DWOLLA_SECRET := DWOLLA_SECRET e;
     DWOLLA_ENV := DWOLLA_ENV e;
     Date_getTime := Date_getTime e;
     encryptId := encryptId e;
     extractCustomerIdFromUrl := extractCustomerIdFromUrl e;
     JSON_stringify := JSON_stringify e;
     JSON_parse := JSON_parse e;
     appwrite_createAdminClient := appwrite_createAdminClient e;
     account_create := account_create e;
     account_createEmailPasswordSession := account_createEmailPasswordSession e;
     account_get := account_get e;
     account_deleteIdentity := account_deleteIdentity e;
     account_deleteSession := account_deleteSession e;
     database_listUserDocuments := database_listUserDocuments e;
     database_listBankDocuments := database_listBankDocuments e;
     database_createUserDocument := fun _ => answer;
     database_createBankDocument := database_createBankDocument e;
     transactions_byBankId := transactions_byBankId e;
     plaid_accountsGet := plaid_accountsGet e;
     plaid_institutionsGetById := plaid_institutionsGetById e;
     plaid_transactionsSync := plaid_transactionsSync e;
     plaid_itemPublicTokenExchange := plaid_itemPublicTokenExchange e;
     plaid_processorTokenCreate := plaid_processorTokenCreate e;
     dwolla_post := dwolla_post e |}.

(** The document store answers the creation of a bank document. *)
Definition withCreateBankDocument (answer : BankDocData -> Result Bank) (e : Env) : Env :=
  {| DWOLLA_KEY := DWOLLA_KEY e;
     DWOLLA_SECRET := DWOLLA_SECRET e;
     DWOLLA_ENV := DWOLLA_ENV e;
     Date_getTime := Date_getTime e;
     encryptId := encryptId e;
     extractCustomerIdFromUrl := extractCustomerIdFromUrl e;
     JSON_stringify := JSON_stringify e;
     JSON_parse := JSON_parse e;
     appwrite_createAdminClient := appwrite_createAdminClient e;
     account_create := account_create e;
     account_createEmailPasswordSession := account_createEmailPasswordSession e;
     account_get := account_get e;
     account_deleteIdentity := account_deleteIdentity e;
     account_deleteSession := account_deleteSession e;
     database_listUserDocuments := database_listUserDocuments e;
     database_listBankDocuments := database_listBankDocuments e;
     database_createUserDocument := database_createUserDocument e;
     database_createBankDocument := fun _ => answer;
     transactions_byBankId := transactions_byBankId e;
     plaid_accountsGet := plaid_accountsGet e;
     plaid_institutionsGetById := plaid_institutionsGetById e;
     plaid_transactionsSync := plaid_transactionsSync e;
     plaid_itemPublicTokenExchange := plaid_itemPublicTokenExchange e;
     plaid_processorTokenCreate := plaid_processorTokenCreate e;
     dwolla_post := dwolla_post e |}.

(** The document store answers the listing of bank documents. *)
Definition withListBankDocuments (answer : Result (list Bank)) (e : Env) : Env :=
  {| DWOLLA_KEY := DWOLLA_KEY e;
     DWOLLA_SECRET := DWOLLA_SECRET e;
     DWOLLA_ENV := DWOLLA_ENV e;
     Date_getTime := Date_getTime e;
     encryptId := encryptId e;
     extractCustomerIdFromUrl := extractCustomerIdFromUrl e;
     JSON_stringify := JSON_stringify e;
     JSON_parse := JSON_parse e;
     appwrite_createAdminClient := appwrite_createAdminClient e;
     account_create := account_create e;
     account_createEmailPasswordSession := account_createEmailPasswordSession e;
     account_get := account_get e;
     account_deleteIdentity := account_deleteIdentity e;
     account_deleteSession := account_deleteSession e;
     database_listUserDocuments := database_listUserDocuments e;
     database_listBankDocuments := fun _ _ _ => answer;
     database_createUserDocument := database_createUserDocument e;
     database_createBankDocument := database_createBankDocument e;
     transactions_byBankId := transactions_byBankId e;
     plaid_accountsGet := plaid_accountsGet e;
     plaid_institutionsGetById := plaid_institutionsGetById e;
     plaid_transactionsSync := plaid_transactionsSync e;
     plaid_itemPublicTokenExchange := plaid_itemPublicTokenExchange e;
     plaid_processorTokenCreate := plaid_processorTokenCreate e;
     dwolla_post := dwolla_post e |}.

(** The transfer records of a bank. *)
Definition withTransfers (answer : Result (list TransferDoc)) (e : Env) : Env :=
  {| DWOLLA_KEY := DWOLLA_KEY e;
     DWOLLA_SECRET := DWOLLA_SECRET e;
     DWOLLA_ENV := DWOLLA_ENV e;
     Date_getTime := Date_getTime e;
     encryptId := encryptId e;
     extractCustomerIdFromUrl := extractCustomerIdFromUrl e;
     JSON_stringify := JSON_stringify e;
     JSON_parse := JSON_parse e;
     appwrite_createAdminClient := appwrite_createAdminClient e;
     account_create := account_create e;
     account_createEmailPasswordSession := account_createEmailPasswordSession e;
     account_get := account_get e;
     account_deleteIdentity := account_deleteIdentity e;
     account_deleteSession := account_deleteSession e;
     database_listUserDocuments := database_listUserDocuments e;
     database_listBankDocuments := database_listBankDocuments e;
     database_createUserDocument := database_createUserDocument e;
     database_createBankDocument := database_createBankDocument e;
     transactions_byBankId := fun _ _ => answer;
     plaid_accountsGet := plaid_accountsGet e;
     plaid_institutionsGetById := plaid_institutionsGetById e;
     plaid_transactionsSync := plaid_transactionsSync e;
     plaid_itemPublicTokenExchange := plaid_itemPublicTokenExchange e;
     plaid_processorTokenCreate := plaid_processorTokenCreate e;
     dwolla_post := dwolla_post e |}.

(** The account behind the session. *)
Definition withAccountGet (answer : Result AppwriteUser) (e : Env) : Env :=
  {| DWOLLA_KEY := DWOLLA_KEY e;
     DWOLLA_SECRET := DWOLLA_SECRET e;
     DWOLLA_ENV := DWOLLA_ENV e;
     Date_getTime := Date_getTime e;
     encryptId := encryptId e;
     extractCustomerIdFromUrl := extractCustomerIdFromUrl e;
     JSON_stringify := JSON_stringify e;
     JSON_parse := JSON_parse e;
     appwrite_createAdminClient := appwrite_createAdminClient e;
     account_create := account_create e;
     account_createEmailPasswordSession := account_createEmailPasswordSession e;
     account_get := fun _ => answer;
     account_deleteIdentity := account_deleteIdentity e;
     account_deleteSession := account_deleteSession e;
     database_listUserDocuments := database_listUserDocuments e;
     database_listBankDocuments := database_listBankDocuments e;
     database_createUserDocument := database_createUserDocument e;
     database_createBankDocument := database_createBankDocument e;
     transactions_byBankId := transactions_byBankId e;
     plaid_accountsGet := plaid_accountsGet e;
     plaid_institutionsGetById := plaid_institutionsGetById e;
     plaid_transactionsSync := plaid_transactionsSync e;
     plaid_itemPublicTokenExchange := plaid_itemPublicTokenExchange e;
     plaid_processorTokenCreate := plaid_processorTokenCreate e;
     dwolla_post := dwolla_post e |}.

Definition stored (doc : UserDocData) : Result (option UserDoc) :=
  Ok (Some (mkUserDoc "doc1" doc)).

Definition adaDoc : UserDoc :=
  mkUserDoc "doc1"
    (mkUserDocData Scenario.newUser "principal1"
       "https://api.dwolla.com/customers/c1" "https://api.dwolla.com/customers/c1").

Definition ada : AppwriteUser := mkAppwriteUser "principal1" "a@x.com".

(** Sign-up goes through. *)
Definition signUpSucceeds : Env :=
  withCreateUserDocument stored
    (Scenario.stub (Ok (Some ada)) (Ok Scenario.aliceSession) [] []
       (fun _ => Err Scenario.offline) Scenario.noSync (Err Scenario.offline)
       (Err Scenario.offline) Scenario.customerCreated).

Definition duplicate : JsError :=
  mkJsError (Some "A user with the same id, email, or phone already exists in this project.")
            (Some 409%Z) None.


Definition invalidCredentials : JsError :=
  mkJsError (Some "Invalid credentials. Please check the email and password.")
            (Some 401%Z) None.

(** The principal exists and the password is not the right one. *)
Definition wrongPassword : Env :=
  Scenario.stub (Err duplicate) (Err invalidCredentials) [] []
    (fun _ => Err Scenario.offline) Scenario.noSync (Err Scenario.offline)
    (Err Scenario.offline) Scenario.customerCreated.

(** The principal and its profile document exist. *)
Definition signedUp : Env :=
  Scenario.stub (Err duplicate) (Ok Scenario.aliceSession) [adaDoc] []
    (fun _ => Err Scenario.offline) Scenario.noSync (Err Scenario.offline)
    (Err Scenario.offline) Scenario.customerCreated.

(** Dwolla answers without a [location] header. *)
Definition noLocation : Env :=
  Scenario.stub (Err Scenario.offline) (Err Scenario.offline) [] []
    (fun _ => Err Scenario.offline) Scenario.noSync (Err Scenario.offline)
    (Err Scenario.offline) (fun _ _ => Ok (mkDwollaResponse None None)).

(** Dwolla's failure carries its validation body as a JSON message only. *)
Definition jsonMessage : string :=
  "{'_embedded':{'errors':[{'path':'/state','message':'must be a US state'}]}}".

Definition messageOnly : Env :=
  withJSONparse
    (fun _ => Some (mkDwollaErrorBody
                      (Some (ErrorsArray [mkFieldError (Some "/state")
                                            (Some "must be a US state")]))
                      None))
    (Scenario.stub (Err Scenario.offline) (Err Scenario.offline) [] []
       (fun _ => Err Scenario.offline) Scenario.noSync (Err Scenario.offline)
       (Err Scenario.offline) (fun _ _ => Err (Error jsonMessage))).

(** The link goes through and the document store is out of reach. *)
Definition storeDown : Env :=
  withCreateBankDocument (fun _ => Err Scenario.offline) Scenario.linkSucceeds.

Definition transferOf (n sender receiver createdAt : string) : TransferDoc :=
  mkTransferDoc ("transfer" ++ n) ("Transfer " ++ n) "25" createdAt "online"
    "Transfer" sender receiver.

(** One linked bank with two transfers; the transaction sync fails. *)
Definition syncDown : Env :=
  withTransfers
    (Ok [transferOf "1" "bank1" "bank9" "2024-01-02T10:00:00.000+00:00";
         transferOf "2" "bank9" "bank1" "2024-01-07T10:00:00.000+00:00"])
    (Scenario.stub (Err Scenario.offline) (Err Scenario.offline) []
       [Scenario.bankOf "1"] Scenario.allFetched Scenario.noSync
       (Err Scenario.offline) (Err Scenario.offline) Scenario.noPost).

(** Ada is signed in and has linked no bank. *)
Definition noBanks : Env :=
  withAccountGet (Ok ada)
    (Scenario.stub (Err Scenario.offline) (Ok Scenario.aliceSession) [adaDoc] []
       (fun _ => Err Scenario.offline) Scenario.noSync (Err Scenario.offline)
       (Err Scenario.offline) Scenario.noPost).

Definition signedIn : SessionEnv :=
  mkSessionEnv (fun _ => Ok tt) (fun _ _ _ => Ok "link-sandbox-1").

Definition signedOut : SessionEnv :=
  mkSessionEnv (fun _ => Err (Error "No session"))
               (fun _ _ _ => Err Scenario.offline).

End Stubs.

(* ===================================================================== *)
(** * Properties                                                          *)
(* ===================================================================== *)

(** ** Running a computation *)

Ltac unfold_monad :=
  unfold bind, try_catch, ret, throw, invoke, console_error, console_log,
    cookies_set, diverge in *.

(** Splits on the next answer of a provider (the innermost scrutinee). *)
Ltac split_on_answer :=
  match goal with
  | |- context [match ?x with _ => _ end] =>
      lazymatch x with
      | context [match _ with _ => _ end] => fail
      | _ => destruct x eqn:?
      end
  end.

(** One step of a run under the failure [H] of a provider: rewrites with
    it where the call appears, else splits on the next answer. *)
Ltac run_step H := first [rewrite H | split_on_answer]; cbn.

(** Closes [exists w' calls, run = (r, w') /\ trace w' = trace w ++ calls
    /\ forall x, ~ In (c x) calls] once the run is a value. *)
Ltac no_such_call :=
  eexists; eexists; split; [reflexivity|]; split;
  [cbn; rewrite <- ?app_assoc; reflexivity|];
  cbn; intros ? Hin;
  repeat (destruct Hin as [Hin|Hin]; [discriminate Hin|]); exact Hin.

(** ** Sorting by a key, most recent first *)

Section SortByKey.
Context {A : Type}.
Variable key : A -> Z.










End SortByKey.

(** ** The merged feed of [getAccount] *)

Section Feed.
Variable env : Env.



(** What [getAccount] returns as [transactions] is this merge, of the
    provider transactions it fetched and the transfer records it read. *)
Lemma getAccount_feed_is_merged (fuel : nat) (appwriteItemId : string)
    (w w' : World) (r : BankActions.AccountResult) :
  BankActions.getAccount env fuel appwriteItemId w = (Return (Some r), w') ->
  exists transactions transferTransactions,
    BankActions.ar_transactions r
    = BankActions.allTransactions env transactions transferTransactions.
Proof.
  unfold BankActions.getAccount, UserActions.getBank,
    UserActions.createAdminClient, BankActions.getInstitution, parseStringify.
  unfold_monad.
  repeat (split_on_answer; cbn);
    intros H; inversion H; subst; cbn; eauto.
Qed.

End Feed.

(** ** The payment rail: dwolla.actions *)

Section PaymentRail.
Variable env : Env.

(** C10.  [createFundingSource], [createOnDemandAuthorization] and
    [createTransfer] always return and never throw: when the provider call
    succeeds they return what they read of the response, and when it raises
    (or the response has no body to read) the error is logged on the console
    and the result is [undefined]. *)
Theorem C10_payment_rail_operations_never_throw :
  (forall (options : DwollaActions.CreateFundingSourceOptions) (w : World),
     exists v w',
       DwollaActions.createFundingSource env options w = (Return v, w')
       /\ match dwolla_post env (trace w)
                  ("customers/" ++ DwollaActions.customerId options
                   ++ "/funding-sources")%string
                  (FundingSourceBody (DwollaActions.fundingSourceName options)
                                     (DwollaActions.plaidToken options)) with
          | Ok res => v = headers_location res /\ console w' = console w
          | Err _ =>
              v = None
              /\ console w' = console w ++ ["Creating a Funding Source Failed: "]
          end)
  /\ (forall w : World,
        exists v w',
          DwollaActions.createOnDemandAuthorization env w = (Return v, w')
          /\ match dwolla_post env (trace w) "on-demand-authorizations" NoBody with
             | Ok (mkDwollaResponse _ (Some authLink)) =>
                 v = authLink /\ console w' = console w
             | _ =>
                 v = None
                 /\ console w'
                    = console w ++ ["Creating an On Demand Authorization Failed: "]
             end)
  /\ (forall (p : DwollaActions.TransferParams) (w : World),
        exists v w',
          DwollaActions.createTransfer env p w = (Return v, w')
          /\ match dwolla_post env (trace w) "transfers"
                     (TransferBody (DwollaActions.sourceFundingSourceUrl p)
                                   (DwollaActions.destinationFundingSourceUrl p)
                                   (DwollaActions.amount p)) with
             | Ok res => v = headers_location res /\ console w' = console w
             | Err _ =>
                 v = None /\ console w' = console w ++ ["Transfer fund failed: "]
             end).
Proof.
  split; [|split].
  - intros options w.
    unfold DwollaActions.createFundingSource, DwollaActions.post. unfold_monad.
    destruct (dwolla_post env (trace w) _ _) as [res|e]; cbn; eauto.
  - intros w.
    unfold DwollaActions.createOnDemandAuthorization, DwollaActions.post.
    unfold_monad.
    destruct (dwolla_post env (trace w) _ _) as [[loc [links|]]|e]; cbn; eauto.
  - intros p w.
    unfold DwollaActions.createTransfer, DwollaActions.post. unfold_monad.
    destruct (dwolla_post env (trace w) _ _) as [res|e]; cbn; eauto.
Qed.

(** [addFundingSource] inherits it: it always returns. *)
Lemma addFundingSource_returns (p : DwollaActions.AddFundingSourceParams) (w : World) :
  exists v w', DwollaActions.addFundingSource env p w = (Return v, w').
Proof.
  unfold DwollaActions.addFundingSource, DwollaActions.createOnDemandAuthorization,
    DwollaActions.createFundingSource, DwollaActions.post.
  unfold_monad.
  destruct (dwolla_post env (trace w) _ _) as [[loc [links|]]|e]; cbn;
    destruct (dwolla_post env _ _ _); cbn; eauto.
Qed.





(** [createDwollaCustomer] returns a customer URL that is not empty, or
    throws: the test [!dwollaCustomerUrl] of its callers never succeeds. *)
Lemma createDwollaCustomer_never_falsy
    (newCustomer : DwollaActions.NewDwollaCustomerParams) (w w' : World)
    (url : string) :
  DwollaActions.createDwollaCustomer env newCustomer w = (Return url, w') ->
  falsy url = false.
Proof.
  unfold DwollaActions.createDwollaCustomer, DwollaActions.post. unfold_monad.
  repeat (split_on_answer; cbn in *); try discriminate.
  all: intros H; inversion H; subst.
  all: match goal with
       | H : truthy ?o = Some ?s |- _ =>
           destruct o as [[|c s']|]; cbn in H; inversion H; reflexivity
       end.
Qed.

End PaymentRail.


(** ** Error classification *)

Lemma isInvalidCredentials_profile (error : JsError) (m : string) :
  message error = Some m ->
  includes (toLowerCase m) "profile" = true ->
  UserActions.isInvalidCredentials error = false.
Proof.
  intros Hm Hp. unfold UserActions.isInvalidCredentials.
  rewrite Hm, Hp. cbn [negb].
  now rewrite !Bool.andb_false_r.
Qed.

Lemma classify_profile (error : JsError) (m : string) :
  message error = Some m ->
  includes (toLowerCase m) "profile" = true ->
  AuthForm.classify error <> AuthForm.InvalidCredentials.
Proof.
  intros Hm Hp. unfold AuthForm.classify. rewrite Hm.
  destruct m as [|c m]; [discriminate Hp|].
  cbn [truthy]. cbv zeta. rewrite Hp. cbn [negb].
  rewrite Bool.andb_false_r.
  repeat match goal with
         | |- context [if ?c then _ else _] => destruct c
         end; discriminate.
Qed.

(** C3.  An error whose message mentions "profile", in any letter case, is
    never classified as invalid credentials: the submit handler of the form
    does not take its invalid-credentials branch, and [signIn] does not set
    its invalid-credentials flag and re-throws the error unchanged. *)
Theorem C3_profile_suppresses_invalid_credentials (error : JsError) (m : string) :
  message error = Some m ->
  includes (toLowerCase m) "profile" = true ->
  AuthForm.classify error <> AuthForm.InvalidCredentials
  /\ UserActions.isInvalidCredentials error = false
  /\ UserActions.signIn_rethrow error = error.
Proof.
  intros Hm Hp. split; [|split].
  - now apply classify_profile with m.
  - now apply isInvalidCredentials_profile with m.
  - unfold UserActions.signIn_rethrow.
    rewrite (isInvalidCredentials_profile error m Hm Hp).
    now destruct (UserActions.message_includes error "PROFILE_DATA_MISSING").
Qed.

(** An unauthorized answer (code 401) that mentions the profile. *)
Lemma C3_unauthorized_profile_example :
  let error := mkJsError (Some "Unauthorized: invalid credentials for this Profile")
                         (Some 401%Z) None in
  AuthForm.classify error <> AuthForm.InvalidCredentials
  /\ UserActions.isInvalidCredentials error = false
  /\ UserActions.signIn_rethrow error = error.
Proof.
  exact (C3_profile_suppresses_invalid_credentials
           (mkJsError (Some "Unauthorized: invalid credentials for this Profile")
                      (Some 401%Z) None)
           "Unauthorized: invalid credentials for this Profile"
           eq_refl eq_refl).
Defined.

(** ** Sign-in *)

Lemma signIn_rethrow_profile_data_missing :
  UserActions.signIn_rethrow (Error UserActions.PROFILE_DATA_MISSING_message)
  = Error UserActions.PROFILE_DATA_MISSING_message.
Proof. vm_compute. reflexivity. Qed.

Lemma profile_data_missing_is_not_invalid_credentials :
  Error UserActions.PROFILE_DATA_MISSING_message
  <> Error UserActions.invalid_credentials_message.
Proof. intro H. vm_compute in H. discriminate H. Qed.

Lemma profile_data_missing_shown_as_such :
  AuthForm.classify (Error UserActions.PROFILE_DATA_MISSING_message)
  = AuthForm.ProfileDataMissing.
Proof. vm_compute. reflexivity. Qed.

Section SignIn.
Variable env : Env.

(** C2 (amended).  When the credentials authenticate and no profile document
    exists for the identity, [signIn] throws the PROFILE_DATA_MISSING error,
    which is not the invalid-credentials error and which the form shows as
    missing profile data.  The session cookie was set before the profile was
    looked up and stays set; [signIn] issues no call that revokes the
    session. *)
Theorem C2_signIn_profile_missing
    (email password : string) (session : Session) (w : World) :
  (forall h, appwrite_createAdminClient env h = Ok tt) ->
  (forall h, account_createEmailPasswordSession env h email password = Ok session) ->
  (forall h, database_listUserDocuments env h (session_userId session) = Ok []) ->
  exists w',
    UserActions.signIn env email password w
    = (Throw (Error UserActions.PROFILE_DATA_MISSING_message), w')
    /\ Error UserActions.PROFILE_DATA_MISSING_message
       <> Error UserActions.invalid_credentials_message
    /\ AuthForm.classify (Error UserActions.PROFILE_DATA_MISSING_message)
       = AuthForm.ProfileDataMissing
    /\ trace w'
       = trace w ++ [CreateAdminClient;
                     AccountCreateEmailPasswordSession email password;
                     CreateAdminClient;
                     ListUserDocuments (session_userId session);
                     AccountGet]
    /\ cookies_get "appwrite-session" w' = Some (session_secret session).
Proof.
  intros Hadmin Hsession Hdocs.
  assert (Hrun : exists w',
             UserActions.signIn env email password w
             = (Throw (Error UserActions.PROFILE_DATA_MISSING_message), w')
             /\ trace w'
                = trace w ++ [CreateAdminClient;
                              AccountCreateEmailPasswordSession email password;
                              CreateAdminClient;
                              ListUserDocuments (session_userId session);
                              AccountGet]
             /\ cookies_get "appwrite-session" w' = Some (session_secret session)).
  { unfold UserActions.signIn, UserActions.getUserInfo,
      UserActions.createAdminClient.
    unfold_monad.
    rewrite !Hadmin, Hsession. cbn -[UserActions.signIn_rethrow].
    rewrite Hadmin. cbn -[UserActions.signIn_rethrow].
    rewrite Hdocs. cbn -[UserActions.signIn_rethrow].
    destruct (account_get env _); cbn -[UserActions.signIn_rethrow];
      rewrite signIn_rethrow_profile_data_missing;
      (eexists; split; [reflexivity|]; split;
       [cbn; rewrite <- !app_assoc; reflexivity | reflexivity]). }
  destruct Hrun as (w' & Hthrow & Htrace & Hcookie).
  exists w'. split; [exact Hthrow|]. split.
  { exact profile_data_missing_is_not_invalid_credentials. }
  split.
  { exact profile_data_missing_shown_as_such. }
  split; assumption.
Qed.

End SignIn.

(** Ada signs in with the right password; her profile document is missing. *)
Lemma C2_signIn_profile_missing_example :
  exists w',
    UserActions.signIn Scenario.profileMissing "a@x.com" "secret1" emptyWorld
    = (Throw (Error UserActions.PROFILE_DATA_MISSING_message), w')
    /\ Error UserActions.PROFILE_DATA_MISSING_message
       <> Error UserActions.invalid_credentials_message
    /\ AuthForm.classify (Error UserActions.PROFILE_DATA_MISSING_message)
       = AuthForm.ProfileDataMissing
    /\ trace w'
       = [CreateAdminClient;
          AccountCreateEmailPasswordSession "a@x.com" "secret1";
          CreateAdminClient;
          ListUserDocuments "principal1";
          AccountGet]
    /\ cookies_get "appwrite-session" w' = Some "s3cr3t".
Proof.
  apply (C2_signIn_profile_missing Scenario.profileMissing "a@x.com" "secret1"
           Scenario.aliceSession emptyWorld).
  - intros h. reflexivity.
  - intros h. reflexivity.
  - intros h. reflexivity.
Defined.

(** Against C2 as the specification states it: after this sign-in the
    session cookie is still set and the session was not deleted. *)
Lemma C2_session_cookie_remains_set :
  let w' := snd (UserActions.signIn Scenario.profileMissing "a@x.com" "secret1"
                   emptyWorld) in
  account_createEmailPasswordSession Scenario.profileMissing [CreateAdminClient]
    "a@x.com" "secret1" = Ok Scenario.aliceSession
  /\ database_listUserDocuments Scenario.profileMissing
       [CreateAdminClient; AccountCreateEmailPasswordSession "a@x.com" "secret1";
        CreateAdminClient] "principal1" = Ok []
  /\ ~ (cookies_get "appwrite-session" w' = None
        \/ In (AccountDeleteSession "session1") (trace w')).
Proof.
  cbv zeta. split; [reflexivity|]. split; [reflexivity|].
  vm_compute. intros [H|H].
  - discriminate H.
  - repeat (destruct H as [H|H]; [discriminate H|]). exact H.
Qed.

(** ** Transaction sync *)

Section Sync.
Variable env : Env.
Variable accessToken : string.

Lemma syncCalls_snoc (h : list Call) (cursor : string) :
  syncCalls (h ++ [PlaidTransactionsSync accessToken cursor]) = S (syncCalls h).
Proof.
  unfold syncCalls. rewrite filter_app, length_app. cbn. lia.
Qed.

Lemma serves_head (w : World) (answer : Result TransactionsSyncResponse)
    (script : list (Result TransactionsSyncResponse)) (cursor : string) :
  serves env accessToken w (answer :: script) ->
  plaid_transactionsSync env (trace w) accessToken cursor = answer.
Proof.
  intros H. apply (H (trace w) cursor 0%nat); [lia | reflexivity].
Qed.

Lemma serves_tail (w w1 : World) (answer : Result TransactionsSyncResponse)
    (script : list (Result TransactionsSyncResponse)) (cursor : string) :
  serves env accessToken w (answer :: script) ->
  trace w1 = trace w ++ [PlaidTransactionsSync accessToken cursor] ->
  serves env accessToken w1 script.
Proof.
  intros H Hw1 h c k a Hh Hk.
  apply (H h c (S k)); [|exact Hk].
  rewrite Hh, Hw1, syncCalls_snoc. lia.
Qed.

(** The pages before the last one: each is consumed by one turn of the
    loop, which then goes on. *)
Lemma syncLoop_pages (pages : list TransactionsSyncResponse)
    (rest : list (Result TransactionsSyncResponse)) :
  Forall (fun p => has_more p = true) pages ->
  forall (fuel : nat) (w : World) (cursor : option string)
         (transactions : list BankActions.Transaction),
    serves env accessToken w (List.map Ok pages ++ rest) ->
    exists (w1 : World) (cursor1 : option string),
      BankActions.syncLoop env (List.length pages + fuel) accessToken cursor
        transactions w
      = BankActions.syncLoop env fuel accessToken cursor1
          (transactions ++ List.concat (List.map entriesOf pages)) w1
      /\ serves env accessToken w1 rest
      /\ trace w1 ++ [PlaidTransactionsSync accessToken (requestCursor cursor1)]
         = trace w ++ syncCallsFor accessToken cursor pages.
Proof.
  induction 1 as [|p pages Hp _ IH]; intros fuel w cursor transactions Hserves.
  - exists w, cursor. cbn. rewrite app_nil_r. auto.
  - cbn [List.map List.length app Nat.add] in *.
    cbn [BankActions.syncLoop].
    unfold bind at 1. unfold invoke at 1.
    fold (requestCursor cursor).
    rewrite (serves_head w (Ok p) _ _ Hserves).
    set (w0 := mkWorld (trace w ++ [PlaidTransactionsSync accessToken (requestCursor cursor)])
                 (console w) (cookieJar w)).
    assert (Hw0 : serves env accessToken w0 (List.map Ok pages ++ rest))
      by (eapply serves_tail; [exact Hserves | reflexivity]).
    rewrite Hp. unfold entriesOf at 1.
    destruct (added p) as [entries|].
    + unfold bind at 1, ret at 1.
      destruct (IH fuel w0 (Some (next_cursor p))
                  (transactions ++ List.map BankActions.normalize entries) Hw0)
        as (w1 & cursor1 & Hrun & Hrest & Htrace).
      exists w1, cursor1. rewrite Hrun. split; [|split]; trivial.
      * cbn [List.concat]. now rewrite app_assoc.
      * rewrite Htrace. subst w0. cbn. now rewrite <- app_assoc.
    + unfold bind at 1, bind at 1, console_error at 1, ret at 1.
      set (w0' := mkWorld (trace w0)
                    (console w0 ++ ["Error: response data.added is not an array"])
                    (cookieJar w0)).
      assert (Hw0' : serves env accessToken w0' (List.map Ok pages ++ rest))
        by exact Hw0.
      destruct (IH fuel w0' (Some (next_cursor p)) transactions Hw0')
        as (w1 & cursor1 & Hrun & Hrest & Htrace).
      exists w1, cursor1. rewrite Hrun. split; [|split]; trivial.
      rewrite Htrace. subst w0' w0. cbn. now rewrite <- app_assoc.
Qed.


(** A failing request ends the loop with the error. *)
Lemma syncLoop_failure (e : JsError) (fuel : nat) (w : World)
    (cursor : option string) (transactions : list BankActions.Transaction)
    (rest : list (Result TransactionsSyncResponse)) :
  serves env accessToken w (Err e :: rest) ->
  exists w',
    BankActions.syncLoop env (S fuel) accessToken cursor transactions w
    = (Throw e, w')
    /\ trace w' = trace w ++ [PlaidTransactionsSync accessToken (requestCursor cursor)].
Proof.
  intros Hserves. cbn [BankActions.syncLoop].
  unfold bind at 1. unfold invoke at 1. fold (requestCursor cursor).
  rewrite (serves_head w (Err e) _ _ Hserves).
  eauto.
Qed.

(** The catch block returns the empty list whatever the error is and
    issues no call. *)
Lemma getTransactions_catch_returns_empty (e : JsError) (w : World) :
  exists w',
    BankActions.getTransactions_catch e w = (Return [], w')
    /\ trace w' = trace w.
Proof.
  unfold BankActions.getTransactions_catch, parseStringify. unfold_monad.
  repeat (split_on_answer; cbn); eauto.
Qed.

End Sync.




Section SyncClaims.
Variable env : Env.


(** C5.  When a sync request fails, after any number of pages that asked
    for more, [getTransactions] does not throw: it returns the empty list,
    whatever the error is, and issues no further call. *)
Theorem C5_sync_failure_returns_empty
    (accessToken : string) (w : World)
    (pages : list TransactionsSyncResponse) (e : JsError) :
  falsy accessToken = false ->
  Forall (fun p => has_more p = true) pages ->
  serves env accessToken w (List.map Ok pages ++ [Err e]) ->
  forall fuel : nat, (List.length pages < fuel)%nat ->
  exists w',
    BankActions.getTransactions env fuel accessToken w = (Return [], w')
    /\ trace w' = trace w ++ syncCallsFor accessToken None pages.
Proof.
  intros Htoken Hpages Hserves fuel Hfuel.
  replace fuel with (List.length pages + S (fuel - S (List.length pages)))%nat by lia.
  destruct (syncLoop_pages env accessToken pages [Err e] Hpages
              (S (fuel - S (List.length pages))) w None [] Hserves)
    as (w1 & cursor1 & Hrun & Hrest & Htrace).
  destruct (syncLoop_failure env accessToken e (fuel - S (List.length pages)) w1
              cursor1 ([] ++ List.concat (List.map entriesOf pages)) [] Hrest)
    as (w2 & Hend & Htrace2).
  destruct (getTransactions_catch_returns_empty e w2) as (w' & Hcatch & Htrace').
  exists w'. split.
  - unfold BankActions.getTransactions. rewrite Htoken.
    unfold try_catch, bind at 1. rewrite Hrun, Hend. exact Hcatch.
  - rewrite Htrace', Htrace2, Htrace. reflexivity.
Qed.

End SyncClaims.



(** A sync that fails on its second request, with each of the conditions
    the catch block tells apart. *)
Lemma C5_failures_example :
  (exists w',
     BankActions.getTransactions
       (Scenario.syncOf [Ok Scenario.page1; Err Scenario.loginRequired])
       2 "token1" emptyWorld = (Return [], w')
     /\ trace w' = [PlaidTransactionsSync "token1" "";
                    PlaidTransactionsSync "token1" "cursor1"])
  /\ (exists w',
        BankActions.getTransactions
          (Scenario.syncOf [Ok Scenario.page1; Err Scenario.consentRequired])
          2 "token1" emptyWorld = (Return [], w')
        /\ trace w' = [PlaidTransactionsSync "token1" "";
                       PlaidTransactionsSync "token1" "cursor1"])
  /\ (exists w',
        BankActions.getTransactions
          (Scenario.syncOf [Ok Scenario.page1; Err Scenario.offline])
          2 "token1" emptyWorld = (Return [], w')
        /\ trace w' = [PlaidTransactionsSync "token1" "";
                       PlaidTransactionsSync "token1" "cursor1"]).
Proof.
  assert (Hserves : forall e,
             serves (Scenario.syncOf [Ok Scenario.page1; Err e]) "token1" emptyWorld
               (List.map Ok [Scenario.page1] ++ [Err e])).
  { intros e h cursor k answer Hh Hk. cbn in Hh.
    unfold Scenario.syncOf, Scenario.stub, Scenario.scripted.
    cbn [plaid_transactionsSync]. rewrite Hh.
    destruct k as [|[|k]]; cbn in Hk |- *; [congruence | congruence |].
    destruct k; discriminate Hk. }
  split; [|split].
  - apply (C5_sync_failure_returns_empty _ "token1" emptyWorld [Scenario.page1]
             Scenario.loginRequired);
      [reflexivity | repeat constructor | apply Hserves | cbn; lia].
  - apply (C5_sync_failure_returns_empty _ "token1" emptyWorld [Scenario.page1]
             Scenario.consentRequired);
      [reflexivity | repeat constructor | apply Hserves | cbn; lia].
  - apply (C5_sync_failure_returns_empty _ "token1" emptyWorld [Scenario.page1]
             Scenario.offline);
      [reflexivity | repeat constructor | apply Hserves | cbn; lia].
Defined.

(** ** Linking a bank *)

Section Link.
Variable env : Env.

(** C7.  When the exchange of the public token, the fetch of the account,
    the creation of the processor token or the registration of the funding
    source fails, [exchangePublicToken] gives up: it returns [undefined]
    and, among the calls it issued, none creates a bank document. *)
Theorem C7_failed_link_persists_no_bank
    (publicToken : string) (user : UserActions.LinkUser) (w : World) :
  (exists e, forall h, plaid_itemPublicTokenExchange env h publicToken = Err e)
  \/ (exists e, forall h token, plaid_accountsGet env h token = Err e)
  \/ (exists e, forall h token account processor,
         plaid_processorTokenCreate env h token account processor = Err e)
  \/ (exists e, forall h path name token,
         dwolla_post env h path (FundingSourceBody name token) = Err e) ->
  exists w' calls,
    UserActions.exchangePublicToken env publicToken user w = (Return None, w')
    /\ trace w' = trace w ++ calls
    /\ forall doc, ~ In (CreateBankDocument doc) calls.
Proof.
  intros [[e H]|[[e H]|[[e H]|[e H]]]];
    unfold UserActions.exchangePublicToken, UserActions.createBankAccount,
      UserActions.createAdminClient, DwollaActions.addFundingSource,
      DwollaActions.createOnDemandAuthorization,
      DwollaActions.createFundingSource, DwollaActions.post;
    unfold_monad; cbn;
    repeat run_step H; no_such_call.
Qed.

End Link.

(** Each of the four steps failing in turn. *)
Lemma C7_each_step_failing_example :
  (exists w' calls,
     UserActions.exchangePublicToken Scenario.exchangeFails "public"
       Scenario.linkUser emptyWorld = (Return None, w')
     /\ trace w' = trace emptyWorld ++ calls
     /\ forall doc, ~ In (CreateBankDocument doc) calls)
  /\ (exists w' calls,
        UserActions.exchangePublicToken Scenario.accountFetchFails "public"
          Scenario.linkUser emptyWorld = (Return None, w')
        /\ trace w' = trace emptyWorld ++ calls
        /\ forall doc, ~ In (CreateBankDocument doc) calls)
  /\ (exists w' calls,
        UserActions.exchangePublicToken Scenario.processorTokenFails "public"
          Scenario.linkUser emptyWorld = (Return None, w')
        /\ trace w' = trace emptyWorld ++ calls
        /\ forall doc, ~ In (CreateBankDocument doc) calls)
  /\ (exists w' calls,
        UserActions.exchangePublicToken Scenario.fundingSourceFails "public"
          Scenario.linkUser emptyWorld = (Return None, w')
        /\ trace w' = trace emptyWorld ++ calls
        /\ forall doc, ~ In (CreateBankDocument doc) calls).
Proof.
  split; [|split; [|split]].
  - apply C7_failed_link_persists_no_bank.
    left. exists Scenario.offline. intros h. reflexivity.
  - apply C7_failed_link_persists_no_bank.
    right; left. exists Scenario.offline. intros h token. reflexivity.
  - apply C7_failed_link_persists_no_bank.
    right; right; left. exists Scenario.offline.
    intros h token account processor. reflexivity.
  - apply C7_failed_link_persists_no_bank.
    right; right; right. exists Scenario.offline.
    intros h path name token. reflexivity.
Defined.

(** ** Sign-up *)

(** C8.  The code leaves the principal behind.  Ada signs up with the state
    [ZZ]: the principal is created, Dwolla rejects the customer, and
    [signUp] throws the validation error; the calls it issued are the
    creation of the principal and the request to Dwolla, and no call deletes
    the principal. *)
Theorem C8_signUp_leaves_the_principal_behind :
  account_create Scenario.signUpRejected [CreateAdminClient]
    "a@x.com" "secret1" "Ada Lovelace"
  = Ok (Some (mkAppwriteUser "principal1" "a@x.com"))
  /\ exists w',
       UserActions.signUp Scenario.signUpRejected "secret1" Scenario.newUser
         emptyWorld
       = (Throw (Error "Validation error: state: must be a US state"), w')
       /\ trace w'
          = [CreateAdminClient;
             AccountCreate "a@x.com" "secret1" "Ada Lovelace";
             DwollaPost "customers"
               (CustomerBody
                  (mkDwollaCustomerData "Ada" "Lovelace" "a@x.com" "personal"
                     "1 Main St" "Springfield" "ZZ" "12345" "1990-01-01" "1234"))]
       /\ ~ In (AccountDeleteIdentity "principal1") (trace w').
Proof.
  split; [reflexivity|].
  eexists. split; [vm_compute; reflexivity|]. split; [reflexivity|].
  cbn. intros H.
  repeat (destruct H as [H|H]; [discriminate H|]). exact H.
Qed.

(** The same when the profile document cannot be persisted: the store
    raises, and the principal created two calls earlier is not deleted. *)
Lemma signUp_profile_refused_leaves_the_principal_behind :
  exists w',
    UserActions.signUp Scenario.profileRefused "secret1" Scenario.newUser emptyWorld
    = (Throw Scenario.offline, w')
    /\ deletions (trace w') = []
    /\ In (AccountCreate "a@x.com" "secret1" "Ada Lovelace") (trace w').
Proof.
  eexists. split; [vm_compute; reflexivity|]. split; [reflexivity|].
  cbn. auto.
Qed.

(** ** Account aggregation *)






Section Aggregation.
Variable env : Env.






End Aggregation.



(** ** The rollback of sign-up is out of reach *)

Lemma deletions_app (h1 h2 : list Call) :
  deletions (h1 ++ h2) = deletions h1 ++ deletions h2.
Proof. apply filter_app. Qed.

(** Computes the deletions of a history built by appending calls. *)
Ltac count_deletions :=
  unfold deletions in *;
  repeat first
    [ rewrite filter_app
    | match goal with
      | H : filter isDeletion (trace ?w) = _
        |- context [filter isDeletion (trace ?w)] => rewrite H
      end
    | progress cbn [filter isDeletion app trace snd] ];
  rewrite ?app_nil_r.

Section SignUp.
Variable env : Env.

Lemma createDwollaCustomer_deletes_nothing
    (newCustomer : DwollaActions.NewDwollaCustomerParams) (w : World) :
  deletions (trace (snd (DwollaActions.createDwollaCustomer env newCustomer w)))
  = deletions (trace w).
Proof.
  unfold DwollaActions.createDwollaCustomer, DwollaActions.post. unfold_monad.
  repeat (split_on_answer; cbn); now count_deletions.
Qed.

Lemma getUserInfo_deletes_nothing (userId : string) (w : World) :
  deletions (trace (snd (UserActions.getUserInfo env userId w)))
  = deletions (trace w).
Proof.
  unfold UserActions.getUserInfo, UserActions.createAdminClient. unfold_monad.
  repeat (split_on_answer; cbn); now count_deletions.
Qed.

(** Records what is known of a run of [createDwollaCustomer] or
    [getUserInfo] that the goal has just split on. *)
Ltac note_run :=
  match goal with
  | H : DwollaActions.createDwollaCustomer env ?nc ?w = (?o, ?w') |- _ =>
      lazymatch goal with
      | _ : deletions (trace w') = _ |- _ => fail
      | _ =>
          let D := fresh "D" in
          pose proof (createDwollaCustomer_deletes_nothing nc w) as D;
          rewrite H in D; cbn [snd trace] in D
      end
  | H : UserActions.getUserInfo env ?u ?w = (?o, ?w') |- _ =>
      lazymatch goal with
      | _ : deletions (trace w') = _ |- _ => fail
      | _ =>
          let D := fresh "D" in
          pose proof (getUserInfo_deletes_nothing u w) as D;
          rewrite H in D; cbn [snd trace] in D
      end
  end.

(** Discards the branches that cannot be taken: an empty customer URL, a
    profile document answered as [null]. *)
Ltac impossible_branch :=
  match goal with
  | H : DwollaActions.createDwollaCustomer env _ _ = (Return ?url, _),
    F : falsy ?url = true |- _ =>
      rewrite (createDwollaCustomer_never_falsy env _ _ _ _ H) in F; discriminate F
  | N : forall h doc, database_createUserDocument env h doc <> Ok None,
    H : database_createUserDocument env _ _ = Ok None |- _ =>
      exfalso; exact (N _ _ H)
  end.

Ltac run_signUp :=
  repeat (split_on_answer; cbn; try impossible_branch; try note_run).

Lemma signUp_recover_deletes_nothing (password : string) (userData : UserData)
    (w : World) :
  deletions (trace (snd (UserActions.signUp_recover env password userData w)))
  = deletions (trace w).
Proof.
  unfold UserActions.signUp_recover, UserActions.createAdminClient,
    UserActions.createEmailPasswordSession, UserActions.createUserDocument.
  unfold_monad.
  run_signUp; now count_deletions.
Qed.

(** Unless the document store answers the creation of the profile document
    with [null], no run of [signUp] deletes a principal: a failure of the
    customer creation or of the profile persistence arrives as an exception,
    which skips both cleanup blocks. *)
Lemma signUp_deletes_no_principal (password : string) (userData : UserData)
    (w : World) :
  (forall h doc, database_createUserDocument env h doc <> Ok None) ->
  deletions (trace (snd (UserActions.signUp env password userData w)))
  = deletions (trace w).
Proof.
  intros Hdoc.
  unfold UserActions.signUp, UserActions.createAdminClient,
    UserActions.createEmailPasswordSession, UserActions.createUserDocument,
    UserActions.deleteIdentity.
  unfold try_catch at 1.
  match goal with
  | |- context [match ?body w with _ => _ end] =>
      destruct (body w) as [o w1] eqn:Hbody;
      assert (Hw1 : deletions (trace w1) = deletions (trace w))
  end.
  - revert Hbody. unfold_monad.
    run_signUp; intros Hbody; inversion Hbody; subst; now count_deletions.
  - destruct o as [user|error|]; cbn [snd]; trivial.
    unfold bind at 1, console_error at 1.
    match goal with
    | |- context [if ?c then _ else _] => destruct c
    end.
    + pose proof (signUp_recover_deletes_nothing password userData
                    (mkWorld (trace w1) (console w1 ++ ["Sign up error:"])
                       (cookieJar w1))) as Hrec.
      unfold bind.
      destruct (UserActions.signUp_recover env password userData _)
        as [[[recovered|]|e|] w2]; cbn [snd trace] in *;
        unfold ret, throw; cbn [snd]; congruence.
    + unfold throw. cbn [snd trace]. exact Hw1.
Qed.

End SignUp.

(* ===================================================================== *)
(** * Further properties of the actions                                   *)
(* ===================================================================== *)

(** ** Creating the payment customer *)

Section Customer.
Variable env : Env.

(** X1.  What [createDwollaCustomer] returns is the [location] header of
    Dwolla's answer to the one request it sent, and it is not empty. *)
Theorem X1_createDwollaCustomer_returns_the_location
    (newCustomer : DwollaActions.NewDwollaCustomerParams) (w w' : World)
    (url : string) :
  DwollaActions.createDwollaCustomer env newCustomer w = (Return url, w') ->
  url <> ""
  /\ (exists res,
        dwolla_post env (trace w) "customers"
          (CustomerBody (customerDataOf newCustomer)) = Ok res
        /\ headers_location res = Some url)
  /\ trace w'
     = trace w ++ [DwollaPost "customers" (CustomerBody (customerDataOf newCustomer))].
Proof.
  unfold DwollaActions.createDwollaCustomer, DwollaActions.post, customerDataOf.
  unfold_monad.
  repeat (split_on_answer; cbn in * ); try discriminate.
  all: intros H; inversion H; subst; clear H.
  all: match goal with
       | T : truthy ?o = Some ?s |- _ =>
           destruct o as [[|c s']|] eqn:Hloc; cbn in T; inversion T; subst
       end.
  all: split; [discriminate|]; split; [|reflexivity].
  all: eexists; split; [reflexivity|exact Hloc].
Qed.


(** X3.  A failure of the request that carries no response body is reported
    by its message: whatever [JSON.parse] makes of the message, even a list
    of field errors, the error thrown is ["Dwolla customer creation
    failed: "] followed by the message. *)
Theorem X3_createDwollaCustomer_reports_the_message
    (newCustomer : DwollaActions.NewDwollaCustomerParams) (w : World)
    (e : JsError) (msg : string) :
  DwollaActions.env_missing (DWOLLA_KEY env) = false ->
  DwollaActions.env_missing (DWOLLA_SECRET env) = false ->
  DwollaActions.env_missing (DWOLLA_ENV env) = false ->
  (forall h customer, dwolla_post env h "customers" customer = Err e) ->
  match response e with
  | Some r => body r = None
  | None => True
  end ->
  message e = Some msg ->
  msg <> "" ->
  exists w',
    DwollaActions.createDwollaCustomer env newCustomer w
    = (Throw (Error ("Dwolla customer creation failed: " ++ msg)), w').
Proof.
  intros Hkey Hsecret Henv Hpost Hbody Hmsg Hne.
  unfold DwollaActions.createDwollaCustomer, DwollaActions.post.
  assert (Htruthy : truthy (Some msg) = Some msg)
    by (destruct msg; [congruence | reflexivity]).
  rewrite Hkey, Hsecret, Henv. unfold_monad. cbn -[truthy].
  rewrite Hpost, Hmsg, Htruthy. cbn -[truthy].
  destruct (response e) as [r|]; cbn -[truthy]; [rewrite Hbody|];
    repeat (split_on_answer; cbn); eauto.
Qed.

(** X4.  When Dwolla accepts the customer and its answer has no [location]
    header, the customer exists at Dwolla and [createDwollaCustomer] still
    throws. *)
Theorem X4_createDwollaCustomer_without_location
    (newCustomer : DwollaActions.NewDwollaCustomerParams) (w : World)
    (res : DwollaResponse) :
  DwollaActions.env_missing (DWOLLA_KEY env) = false ->
  DwollaActions.env_missing (DWOLLA_SECRET env) = false ->
  DwollaActions.env_missing (DWOLLA_ENV env) = false ->
  (forall h customer, dwolla_post env h "customers" customer = Ok res) ->
  truthy (headers_location res) = None ->
  exists w',
    DwollaActions.createDwollaCustomer env newCustomer w
    = (Throw (Error "Dwolla customer creation failed: Dwolla customer created but no location URL returned."),
       w')
    /\ trace w'
       = trace w ++ [DwollaPost "customers" (CustomerBody (customerDataOf newCustomer))].
Proof.
  intros Hkey Hsecret Henv Hpost Hloc.
  unfold DwollaActions.createDwollaCustomer, DwollaActions.post, customerDataOf.
  rewrite Hkey, Hsecret, Henv. unfold_monad. cbn.
  rewrite Hpost, Hloc. cbn.
  repeat (split_on_answer; cbn); eauto.
Qed.

(** X5.  [addFundingSource] always sends its two requests and always
    returns: the on-demand authorization first, whose failure or answer
    changes nothing, then the funding source, whose [location] header is
    the result ([undefined] when that request fails). *)
Theorem X5_addFundingSource_ignores_the_authorization
    (p : DwollaActions.AddFundingSourceParams) (w : World) :
  exists v w',
    DwollaActions.addFundingSource env p w = (Return v, w')
    /\ trace w'
       = trace w
         ++ [DwollaPost "on-demand-authorizations" NoBody;
             DwollaPost ("customers/" ++ DwollaActions.dwollaCustomerId p
                         ++ "/funding-sources")
               (FundingSourceBody (DwollaActions.bankName p)
                                  (DwollaActions.processorToken p))]
    /\ v = match dwolla_post env
                   (trace w ++ [DwollaPost "on-demand-authorizations" NoBody])
                   ("customers/" ++ DwollaActions.dwollaCustomerId p
                    ++ "/funding-sources")
                   (FundingSourceBody (DwollaActions.bankName p)
                                      (DwollaActions.processorToken p)) with
           | Ok res => headers_location res
           | Err _ => None
           end.
Proof.
  unfold DwollaActions.addFundingSource, DwollaActions.createOnDemandAuthorization,
    DwollaActions.createFundingSource, DwollaActions.post.
  unfold_monad.
  destruct (dwolla_post env (trace w) _ _) as [[loc [links|]]|e]; cbn;
    destruct (dwolla_post env _ _ _); cbn;
    (eexists; eexists; split; [reflexivity|]; split;
     [now rewrite <- app_assoc | reflexivity]).
Qed.

End Customer.

Lemma X1_created_customer_example :
  exists w',
    DwollaActions.createDwollaCustomer Stubs.signUpSucceeds
      (UserActions.personal Scenario.newUser) emptyWorld
    = (Return "https://api.dwolla.com/customers/c1", w')
    /\ "https://api.dwolla.com/customers/c1" <> ""
    /\ trace w'
       = [DwollaPost "customers"
            (CustomerBody (customerDataOf (UserActions.personal Scenario.newUser)))].
Proof.
  eexists. split; [vm_compute; reflexivity|].
  destruct (X1_createDwollaCustomer_returns_the_location Stubs.signUpSucceeds
              (UserActions.personal Scenario.newUser) emptyWorld _
              "https://api.dwolla.com/customers/c1" eq_refl)
    as (Hne & _ & Htrace).
  split; [exact Hne | exact Htrace].
Defined.


(** Dwolla's validation body arrives as the message of the failure;
    [JSON.parse] reads the field errors, and they are not reported. *)
Lemma X3_json_message_example :
  exists w',
    DwollaActions.createDwollaCustomer Stubs.messageOnly
      (UserActions.personal Scenario.newUser) emptyWorld
    = (Throw (Error ("Dwolla customer creation failed: " ++ Stubs.jsonMessage)), w').
Proof.
  apply (X3_createDwollaCustomer_reports_the_message Stubs.messageOnly
           (UserActions.personal Scenario.newUser) emptyWorld
           (Error Stubs.jsonMessage) Stubs.jsonMessage).
  - reflexivity.
  - reflexivity.
  - reflexivity.
  - intros h customer. reflexivity.
  - exact I.
  - reflexivity.
  - discriminate.
Defined.

Lemma X4_no_location_example :
  exists w',
    DwollaActions.createDwollaCustomer Stubs.noLocation
      (UserActions.personal Scenario.newUser) emptyWorld
    = (Throw (Error "Dwolla customer creation failed: Dwolla customer created but no location URL returned."),
       w')
    /\ trace w'
       = [DwollaPost "customers"
            (CustomerBody (customerDataOf (UserActions.personal Scenario.newUser)))].
Proof.
  apply (X4_createDwollaCustomer_without_location Stubs.noLocation
           (UserActions.personal Scenario.newUser) emptyWorld
           (mkDwollaResponse None None)).
  - reflexivity.
  - reflexivity.
  - reflexivity.
  - intros h customer. reflexivity.
  - reflexivity.
Defined.

(** ** The helpers that read and write the stores *)

Section Lookups.
Variable env : Env.

(** X6.  [getUserInfo], [getBank], [getBanks], [createBankAccount] and
    [getInstitution] never throw.  Each returns what the store or the
    provider answered (of a listing, the first document), and returns
    [null] or [undefined] when the admin client cannot be created, the
    call fails, or the listing is empty. *)
Theorem X6_store_helpers_never_throw :
  (forall (userId : string) (w : World),
     exists w',
       UserActions.getUserInfo env userId w
       = (Return
            match appwrite_createAdminClient env (trace w),
                  database_listUserDocuments env (trace w ++ [CreateAdminClient])
                    userId with
            | Ok _, Ok (doc :: _) => Some doc
            | _, _ => None
            end, w'))
  /\ (forall (documentId : string) (w : World),
        exists w',
          UserActions.getBank env documentId w
          = (Return
               match appwrite_createAdminClient env (trace w),
                     database_listBankDocuments env (trace w ++ [CreateAdminClient])
                       "$id" documentId with
               | Ok _, Ok (doc :: _) => Some doc
               | _, _ => None
               end, w'))
  /\ (forall (userId : string) (w : World),
        exists w',
          UserActions.getBanks env userId w
          = (Return
               match appwrite_createAdminClient env (trace w),
                     database_listBankDocuments env (trace w ++ [CreateAdminClient])
                       "userId" userId with
               | Ok _, Ok banks => Some banks
               | _, _ => None
               end, w'))
  /\ (forall (doc : BankDocData) (w : World),
        exists w',
          UserActions.createBankAccount env doc w
          = (Return
               match appwrite_createAdminClient env (trace w),
                     database_createBankDocument env (trace w ++ [CreateAdminClient])
                       doc with
               | Ok _, Ok bank => Some bank
               | _, _ => None
               end, w'))
  /\ (forall (institutionId : option string) (w : World),
        exists w',
          BankActions.getInstitution env institutionId w
          = (Return
               match plaid_institutionsGetById env (trace w) institutionId with
               | Ok institution => Some institution
               | Err _ => None
               end, w')).
Proof.
  repeat split; intros;
    unfold UserActions.getUserInfo, UserActions.getBank, UserActions.getBanks,
      UserActions.createBankAccount, UserActions.createAdminClient,
      BankActions.getInstitution, parseStringify;
    unfold_monad;
    repeat (split_on_answer; cbn); eauto.
Qed.

End Lookups.

(** ** Sign-in *)

Section SignInMore.
Variable env : Env.

(** X7.  When the credentials do not authenticate, [signIn] sets no cookie
    and reads no profile: it throws what its catch block makes of the
    error of the session request. *)
Theorem X7_signIn_rejected_sets_no_cookie
    (email password : string) (e : JsError) (w : World) :
  (forall h, appwrite_createAdminClient env h = Ok tt) ->
  (forall h, account_createEmailPasswordSession env h email password = Err e) ->
  exists w',
    UserActions.signIn env email password w
    = (Throw (UserActions.signIn_rethrow e), w')
    /\ cookieJar w' = cookieJar w
    /\ trace w'
       = trace w ++ [CreateAdminClient;
                     AccountCreateEmailPasswordSession email password].
Proof.
  intros Hadmin Hsession.
  unfold UserActions.signIn, UserActions.createAdminClient. unfold_monad.
  rewrite Hadmin, Hsession. cbn -[UserActions.signIn_rethrow].
  eexists. split; [reflexivity|]. split; [reflexivity|].
  cbn. now rewrite <- app_assoc.
Qed.

(** X8.  Whenever [signIn] returns a user, the session cookie holds the
    secret of the session it created, and the user is the first profile
    document the store lists for the identity of that session. *)
Theorem X8_signIn_returns_with_the_cookie_set
    (email password : string) (w w' : World) (user : UserDoc) :
  UserActions.signIn env email password w = (Return user, w') ->
  exists (session : Session) (others : list UserDoc),
    account_createEmailPasswordSession env (trace w ++ [CreateAdminClient])
      email password = Ok session
    /\ cookies_get "appwrite-session" w' = Some (session_secret session)
    /\ database_listUserDocuments env
         (trace w ++ [CreateAdminClient;
                      AccountCreateEmailPasswordSession email password;
                      CreateAdminClient])
         (session_userId session)
       = Ok (user :: others).
Proof.
  unfold UserActions.signIn, UserActions.getUserInfo,
    UserActions.createAdminClient, parseStringify.
  unfold_monad.
  repeat (split_on_answer; cbn -[UserActions.signIn_rethrow] in * );
    intros H; inversion H; subst; clear H.
  eexists; eexists. split; [reflexivity|]. split; [reflexivity|].
  rewrite <- !app_assoc in *. cbn in *. eassumption.
Qed.

End SignInMore.

(** Appwrite's answer to a wrong password leaves as the invalid-credentials
    error. *)
Lemma X7_wrong_password_example :
  exists w',
    UserActions.signIn Stubs.wrongPassword "a@x.com" "guess" emptyWorld
    = (Throw (Error UserActions.invalid_credentials_message), w')
    /\ cookieJar w' = []
    /\ trace w' = [CreateAdminClient;
                   AccountCreateEmailPasswordSession "a@x.com" "guess"].
Proof.
  apply (X7_signIn_rejected_sets_no_cookie Stubs.wrongPassword "a@x.com" "guess"
           Stubs.invalidCredentials emptyWorld).
  - intros h. reflexivity.
  - intros h. reflexivity.
Defined.

Lemma X8_signed_in_example :
  exists w' session others,
    UserActions.signIn Stubs.signedUp "a@x.com" "secret1" emptyWorld
    = (Return Stubs.adaDoc, w')
    /\ cookies_get "appwrite-session" w' = Some (session_secret session)
    /\ database_listUserDocuments Stubs.signedUp
         [CreateAdminClient; AccountCreateEmailPasswordSession "a@x.com" "secret1";
          CreateAdminClient]
         (session_userId session)
       = Ok (Stubs.adaDoc :: others).
Proof.
  eexists.
  destruct (X8_signIn_returns_with_the_cookie_set Stubs.signedUp "a@x.com"
              "secret1" emptyWorld _ Stubs.adaDoc eq_refl)
    as (session & others & _ & Hcookie & Hdocs).
  exists session, others. split; [reflexivity|]. split; assumption.
Defined.

(** ** Sign-up *)

Lemma truthy_nonempty (s : string) : s <> "" -> truthy (Some s) = Some s.
Proof. destruct s; [congruence | reflexivity]. Qed.

Lemma falsy_nonempty (s : string) : s <> "" -> falsy s = false.
Proof. destruct s; [congruence | reflexivity]. Qed.

Section SignUpMore.
Variable env : Env.

(** The run of [createDwollaCustomer] when Dwolla accepts the customer. *)
Lemma createDwollaCustomer_accepted
    (newCustomer : DwollaActions.NewDwollaCustomerParams) (w : World)
    (res : DwollaResponse) (url : string) :
  DwollaActions.env_missing (DWOLLA_KEY env) = false ->
  DwollaActions.env_missing (DWOLLA_SECRET env) = false ->
  DwollaActions.env_missing (DWOLLA_ENV env) = false ->
  (forall h customer, dwolla_post env h "customers" customer = Ok res) ->
  headers_location res = Some url ->
  url <> "" ->
  DwollaActions.createDwollaCustomer env newCustomer w
  = (Return url,
     mkWorld (trace w ++ [DwollaPost "customers"
                            (CustomerBody (customerDataOf newCustomer))])
       (console w ++ ["Creating Dwolla customer with data:";
                      "Dwolla customer created successfully:"])
       (cookieJar w)).
Proof.
  intros Hkey Hsecret Henv Hpost Hloc Hne.
  unfold DwollaActions.createDwollaCustomer, DwollaActions.post, customerDataOf.
  rewrite Hkey, Hsecret, Henv. unfold_monad. cbn -[truthy].
  rewrite Hpost, Hloc, (truthy_nonempty url Hne). cbn.
  now rewrite <- app_assoc.
Qed.

(** X9.  When every step succeeds, [signUp] creates the principal, then
    the Dwolla customer, then the profile document - which carries the id
    of the principal, the URL of the customer and the customer id read off
    that URL - and only then opens the session and sets its cookie; it
    returns the profile document. *)
Theorem X9_signUp_succeeds
    (password : string) (userData : UserData) (w : World)
    (principal : AppwriteUser) (res : DwollaResponse) (url : string)
    (doc : UserDoc) (session : Session) :
  (forall h, appwrite_createAdminClient env h = Ok tt) ->
  (forall h name, account_create env h (email userData) password name
                  = Ok (Some principal)) ->
  DwollaActions.env_missing (DWOLLA_KEY env) = false ->
  DwollaActions.env_missing (DWOLLA_SECRET env) = false ->
  DwollaActions.env_missing (DWOLLA_ENV env) = false ->
  (forall h customer, dwolla_post env h "customers" customer = Ok res) ->
  headers_location res = Some url ->
  url <> "" ->
  (forall h, database_createUserDocument env h
               (mkUserDocData userData (au_id principal)
                  (extractCustomerIdFromUrl env url) url) = Ok (Some doc)) ->
  (forall h, account_createEmailPasswordSession env h (email userData) password
             = Ok session) ->
  exists w',
    UserActions.signUp env password userData w = (Return doc, w')
    /\ cookies_get "appwrite-session" w' = Some (session_secret session)
    /\ trace w'
       = trace w
         ++ [CreateAdminClient;
             AccountCreate (email userData) password
               (firstName userData ++ " " ++ lastName userData);
             DwollaPost "customers"
               (CustomerBody (customerDataOf (UserActions.personal userData)));
             CreateUserDocument
               (mkUserDocData userData (au_id principal)
                  (extractCustomerIdFromUrl env url) url);
             AccountCreateEmailPasswordSession (email userData) password].
Proof.
  intros Hadmin Hcreate Hkey Hsecret Henv Hpost Hloc Hne Hdoc Hsession.
  unfold UserActions.signUp, UserActions.createAdminClient,
    UserActions.createUserDocument, UserActions.createEmailPasswordSession,
    parseStringify.
  unfold try_catch, bind, invoke.
  rewrite Hadmin, Hcreate.
  rewrite (createDwollaCustomer_accepted _ _ res url Hkey Hsecret Henv Hpost Hloc Hne).
  rewrite (falsy_nonempty url Hne).
  unfold ret at 1. cbn [trace console cookieJar].
  rewrite Hdoc, Hsession.
  unfold cookies_set, ret. cbn [trace console cookieJar].
  eexists. split; [reflexivity|]. split; [reflexivity|].
  cbn [trace]. now rewrite <- !app_assoc.
Qed.

End SignUpMore.

Lemma X9_signUp_example :
  exists w',
    UserActions.signUp Stubs.signUpSucceeds "secret1" Scenario.newUser emptyWorld
    = (Return Stubs.adaDoc, w')
    /\ cookies_get "appwrite-session" w' = Some "s3cr3t"
    /\ trace w'
       = [CreateAdminClient;
          AccountCreate "a@x.com" "secret1" "Ada Lovelace";
          DwollaPost "customers"
            (CustomerBody (customerDataOf (UserActions.personal Scenario.newUser)));
          CreateUserDocument (user_data Stubs.adaDoc);
          AccountCreateEmailPasswordSession "a@x.com" "secret1"].
Proof.
  apply (X9_signUp_succeeds Stubs.signUpSucceeds "secret1" Scenario.newUser
           emptyWorld Stubs.ada
           (mkDwollaResponse (Some "https://api.dwolla.com/customers/c1") None)
           "https://api.dwolla.com/customers/c1" Stubs.adaDoc
           Scenario.aliceSession).
  - intros h. reflexivity.
  - intros h name. reflexivity.
  - reflexivity.
  - reflexivity.
  - reflexivity.
  - intros h customer. reflexivity.
  - reflexivity.
  - discriminate.
  - intros h. reflexivity.
  - intros h. reflexivity.
Defined.

Section SignUpRecovery.
Variable env : Env.


(** X11.  When the principal already exists and the recovery finds nothing
    to heal - the credentials do not authenticate, or the profile document
    is there - [signUp] throws the one error "An account with this email
    already exists. Please sign in instead.", sets no cookie, and creates
    neither a Dwolla customer nor a profile document. *)
Theorem X11_signUp_refuses_an_existing_account
    (password : string) (userData : UserData) (w : World) (e : JsError) :
  (forall h, appwrite_createAdminClient env h = Ok tt) ->
  (forall h name, account_create env h (email userData) password name = Err e) ->
  alreadyExists e = true ->
  (exists e', forall h,
      account_createEmailPasswordSession env h (email userData) password = Err e')
  \/ (exists session doc docs,
        (forall h, account_createEmailPasswordSession env h (email userData) password
                   = Ok session)
        /\ session_userId session <> ""
        /\ forall h, database_listUserDocuments env h (session_userId session)
                     = Ok (doc :: docs)) ->
  exists w' calls,
    UserActions.signUp env password userData w
    = (Throw (Error UserActions.already_exists_message), w')
    /\ cookieJar w' = cookieJar w
    /\ trace w' = trace w ++ calls
    /\ Forall (fun c => provisions c = false) calls.
Proof.
  intros Hadmin Hcreate Hexists Hcases.
  unfold alreadyExists in Hexists.
  assert (Hrethrow : includes UserActions.already_exists_message "already exists"
                     = true) by (vm_compute; reflexivity).
  unfold UserActions.signUp, UserActions.signUp_recover, UserActions.getUserInfo,
    UserActions.createAdminClient, UserActions.createUserDocument,
    UserActions.createEmailPasswordSession, parseStringify.
  unfold_monad.
  destruct Hcases as [(e' & Hsession)
                     |(session & doc & docs & Hsession & Huid & Hdocs)].
  - repeat first
      [ rewrite Hadmin | rewrite Hcreate | rewrite Hexists | rewrite Hsession
      | rewrite Hrethrow
      | progress cbn -[falsy includes UserActions.message_includes
                       UserActions.code_is UserActions.already_exists_message
                       DwollaActions.createDwollaCustomer] ].
    eexists; eexists. split; [reflexivity|]. split; [reflexivity|].
    split; [cbn; rewrite <- ?app_assoc; reflexivity|].
    repeat constructor.
  - pose proof (falsy_nonempty _ Huid) as Hfuid.
    repeat first
      [ rewrite Hadmin | rewrite Hcreate | rewrite Hexists | rewrite Hsession
      | rewrite Hdocs | rewrite Hfuid | rewrite Hrethrow
      | progress cbn -[falsy includes UserActions.message_includes
                       UserActions.code_is UserActions.already_exists_message
                       DwollaActions.createDwollaCustomer] ].
    destruct (account_deleteSession env _ _);
      repeat first
        [ rewrite Hadmin | rewrite Hdocs | rewrite Hfuid | rewrite Hrethrow
        | progress cbn -[falsy includes UserActions.message_includes
                         UserActions.code_is UserActions.already_exists_message
                         DwollaActions.createDwollaCustomer] ];
      (eexists; eexists; split; [reflexivity|]; split; [reflexivity|];
       split; [cbn; rewrite <- ?app_assoc; reflexivity|];
       repeat constructor).
Qed.

End SignUpRecovery.


(** A wrong password, and a complete account. *)
Lemma X11_existing_account_example :
  (exists w' calls,
     UserActions.signUp Stubs.wrongPassword "guess" Scenario.newUser emptyWorld
     = (Throw (Error UserActions.already_exists_message), w')
     /\ cookieJar w' = cookieJar emptyWorld
     /\ trace w' = trace emptyWorld ++ calls
     /\ Forall (fun c => provisions c = false) calls)
  /\ (exists w' calls,
        UserActions.signUp Stubs.signedUp "secret1" Scenario.newUser emptyWorld
        = (Throw (Error UserActions.already_exists_message), w')
        /\ cookieJar w' = cookieJar emptyWorld
        /\ trace w' = trace emptyWorld ++ calls
        /\ Forall (fun c => provisions c = false) calls).
Proof.
  split.
  - apply (X11_signUp_refuses_an_existing_account Stubs.wrongPassword "guess"
             Scenario.newUser emptyWorld Stubs.duplicate).
    + intros h. reflexivity.
    + intros h name. reflexivity.
    + reflexivity.
    + left. exists Stubs.invalidCredentials. intros h. reflexivity.
  - apply (X11_signUp_refuses_an_existing_account Stubs.signedUp "secret1"
             Scenario.newUser emptyWorld Stubs.duplicate).
    + intros h. reflexivity.
    + intros h name. reflexivity.
    + reflexivity.
    + right. exists Scenario.aliceSession, Stubs.adaDoc, [].
      split; [intros h; reflexivity|]. split; [discriminate|].
      intros h. reflexivity.
Defined.

Section SignUpCookie.
Variable env : Env.

Lemma createDwollaCustomer_keeps_cookies
    (newCustomer : DwollaActions.NewDwollaCustomerParams) (w : World) :
  cookieJar (snd (DwollaActions.createDwollaCustomer env newCustomer w))
  = cookieJar w
  /\ fst (DwollaActions.createDwollaCustomer env newCustomer w) <> OutOfFuel.
Proof.
  unfold DwollaActions.createDwollaCustomer, DwollaActions.post. unfold_monad.
  repeat (split_on_answer; cbn); split; solve [reflexivity | discriminate].
Qed.

Lemma getUserInfo_keeps_cookies (userId : string) (w : World) :
  cookieJar (snd (UserActions.getUserInfo env userId w)) = cookieJar w
  /\ fst (UserActions.getUserInfo env userId w) <> OutOfFuel.
Proof.
  unfold UserActions.getUserInfo, UserActions.createAdminClient. unfold_monad.
  repeat (split_on_answer; cbn); split; solve [reflexivity | discriminate].
Qed.

(** Records what the two runs leave of the cookies. *)
Ltac note_cookies :=
  match goal with
  | H : DwollaActions.createDwollaCustomer env ?nc ?w = (?o, ?w') |- _ =>
      lazymatch goal with
      | _ : cookieJar w' = _ |- _ => fail
      | _ =>
          let K := fresh "K" in
          let F := fresh "F" in
          destruct (createDwollaCustomer_keeps_cookies nc w) as [K F];
          rewrite H in K, F; cbn [fst snd cookieJar] in K, F
      end
  | H : UserActions.getUserInfo env ?u ?w = (?o, ?w') |- _ =>
      lazymatch goal with
      | _ : cookieJar w' = _ |- _ => fail
      | _ =>
          let K := fresh "K" in
          let F := fresh "F" in
          destruct (getUserInfo_keeps_cookies u w) as [K F];
          rewrite H in K, F; cbn [fst snd cookieJar] in K, F
      end
  end.

Ltac run_cookies :=
  repeat (split_on_answer; cbn -[cookies_get]; try note_cookies).

(** What a run of sign-up leaves of the session cookie: set when it
    returns a user, untouched otherwise. *)
Ltac cookie_outcome :=
  first
    [ congruence
    | eexists; reflexivity
    | cbn [cookieJar]; congruence ].

Lemma signUp_recover_cookie (password : string) (userData : UserData) (w : World) :
  match UserActions.signUp_recover env password userData w with
  | (Return (Some _), w') =>
      exists session, cookies_get "appwrite-session" w' = Some (session_secret session)
  | (Return None, w') => cookieJar w' = cookieJar w
  | (Throw _, w') => cookieJar w' = cookieJar w
  | (OutOfFuel, _) => False
  end.
Proof.
  unfold UserActions.signUp_recover, UserActions.createAdminClient,
    UserActions.createEmailPasswordSession, UserActions.createUserDocument.
  unfold_monad.
  run_cookies; cookie_outcome.
Qed.

(** X12.  [signUp] sets the session cookie exactly when it returns a user:
    whatever the providers answer, a run that throws leaves the cookies as
    they were, and a run that returns has set the cookie to the secret of a
    session. *)
Theorem X12_signUp_sets_the_cookie_only_on_success
    (password : string) (userData : UserData) (w : World) :
  match UserActions.signUp env password userData w with
  | (Return _, w') =>
      exists session, cookies_get "appwrite-session" w' = Some (session_secret session)
  | (Throw _, w') => cookieJar w' = cookieJar w
  | (OutOfFuel, _) => False
  end.
Proof.
  unfold UserActions.signUp, UserActions.createAdminClient,
    UserActions.createEmailPasswordSession, UserActions.createUserDocument,
    UserActions.deleteIdentity.
  unfold try_catch at 1.
  match goal with
  | |- context [match ?body w with _ => _ end] =>
      assert (Hbody : match body w with
                      | (Return _, w') =>
                          exists session,
                            cookies_get "appwrite-session" w'
                            = Some (session_secret session)
                      | (Throw _, w') => cookieJar w' = cookieJar w
                      | (OutOfFuel, _) => False
                      end);
      [|destruct (body w) as [[user|error|] w1]]
  end.
  - unfold_monad. run_cookies; cookie_outcome.
  - exact Hbody.
  - unfold bind at 1, console_error at 1.
    match goal with
    | |- context [if ?c then _ else _] => destruct c
    end.
    + pose proof (signUp_recover_cookie password userData
                    (mkWorld (trace w1) (console w1 ++ ["Sign up error:"])
                       (cookieJar w1))) as Hrec.
      unfold bind.
      destruct (UserActions.signUp_recover env password userData _)
        as [[[recovered|]|e|] w2]; cbn [cookieJar] in Hrec;
        unfold ret, throw; solve [exact Hrec | congruence].
    + unfold throw. exact Hbody.
  - exact Hbody.
Qed.

End SignUpCookie.

(** ** Linking a bank *)

Section LinkMore.
Variable env : Env.

(** X13.  [exchangePublicToken] never throws.  It returns either
    ["complete"], after revalidating the path ["/"], or [undefined], and
    then it has neither created a bank document nor revalidated the path. *)
Theorem X13_exchangePublicToken_never_throws
    (publicToken : string) (user : UserActions.LinkUser) (w : World) :
  exists v w' calls,
    UserActions.exchangePublicToken env publicToken user w = (Return v, w')
    /\ trace w' = trace w ++ calls
    /\ match v with
       | Some result => result = "complete" /\ In (RevalidatePath "/") calls
       | None =>
           ~ In (RevalidatePath "/") calls
           /\ forall doc, ~ In (CreateBankDocument doc) calls
       end.
Proof.
  unfold UserActions.exchangePublicToken, UserActions.createBankAccount,
    UserActions.createAdminClient, DwollaActions.addFundingSource,
    DwollaActions.createOnDemandAuthorization,
    DwollaActions.createFundingSource, DwollaActions.post, parseStringify.
  unfold_monad.
  repeat (split_on_answer; cbn).
  all: eexists; eexists; eexists; split; [reflexivity|]; split;
    [cbn; rewrite <- ?app_assoc; reflexivity|]; cbn.
  all: try (split; [reflexivity|]; tauto).
  all: split; [|intros doc]; intros Hin;
    repeat (destruct Hin as [Hin|Hin]; [discriminate Hin|]); exact Hin.
Qed.

(** X14.  When the token exchange, the account fetch, the processor token
    and the funding source succeed, [exchangePublicToken] returns
    ["complete"] whatever the document store does.  It asks the store to
    create one bank document - for the user's id, the item, the first
    account of the item, the access token, the funding source and
    [encryptId] of the account id - provided the admin client can be
    created, and a failure of the store is only logged. *)
Theorem X14_exchangePublicToken_completes_whatever_the_store_does
    (publicToken : string) (user : UserActions.LinkUser) (w : World)
    (exchanged : TokenExchangeResponse) (accountData : PlaidAccount)
    (others : list PlaidAccount) (institutionId : option string)
    (processorToken : string) (res : DwollaResponse) (fundingSourceUrl : string) :
  (forall h, plaid_itemPublicTokenExchange env h publicToken = Ok exchanged) ->
  (forall h, plaid_accountsGet env h (access_token exchanged)
             = Ok (mkAccountsGetResponse (accountData :: others) institutionId)) ->
  (forall h, plaid_processorTokenCreate env h (access_token exchanged)
               (account_id accountData) "dwolla" = Ok processorToken) ->
  (forall h path name token,
      dwolla_post env h path (FundingSourceBody name token) = Ok res) ->
  headers_location res = Some fundingSourceUrl ->
  fundingSourceUrl <> "" ->
  let linked :=
    [PlaidItemPublicTokenExchange publicToken;
     PlaidAccountsGet (access_token exchanged);
     PlaidProcessorTokenCreate (access_token exchanged) (account_id accountData)
       "dwolla";
     DwollaPost "on-demand-authorizations" NoBody;
     DwollaPost ("customers/" ++ UserActions.lu_dwollaCustomerId user
                 ++ "/funding-sources")
       (FundingSourceBody (acc_name accountData) processorToken)] in
  exists w',
    UserActions.exchangePublicToken env publicToken user w
    = (Return (Some "complete"), w')
    /\ trace w'
       = (trace w ++ linked)
         ++ CreateAdminClient
            :: match appwrite_createAdminClient env (trace w ++ linked) with
               | Ok _ =>
                   [CreateBankDocument
                      (mkBankDocData (UserActions.lu_id user) (item_id exchanged)
                         (account_id accountData) (access_token exchanged)
                         fundingSourceUrl (encryptId env (account_id accountData)))]
               | Err _ => []
               end
         ++ [RevalidatePath "/"].
Proof.
  intros Hexchange Haccounts Hprocessor Hpost Hloc Hne linked. subst linked.
  pose proof (truthy_nonempty _ Hne) as Htruthy.
  unfold UserActions.exchangePublicToken, UserActions.createBankAccount,
    UserActions.createAdminClient, DwollaActions.addFundingSource,
    DwollaActions.createOnDemandAuthorization,
    DwollaActions.createFundingSource, DwollaActions.post, parseStringify.
  unfold_monad.
  rewrite Hexchange. cbn -[truthy]. rewrite Haccounts. cbn -[truthy].
  rewrite Hprocessor. cbn -[truthy].
  destruct (dwolla_post env _ "on-demand-authorizations" NoBody)
    as [[loc [links|]]|e0]; cbn -[truthy];
    rewrite Hpost; cbn -[truthy]; rewrite Hloc, Htruthy; cbn -[truthy];
    rewrite <- !app_assoc; cbn [app];
    repeat (split_on_answer; cbn);
    (eexists; split; [reflexivity|]; cbn; rewrite <- ?app_assoc; reflexivity).
Qed.

End LinkMore.

(** The link goes through while the document store is out of reach: the
    result is still ["complete"]. *)
Lemma X14_store_down_example :
  exists w',
    UserActions.exchangePublicToken Stubs.storeDown "public" Scenario.linkUser
      emptyWorld
    = (Return (Some "complete"), w')
    /\ trace w'
       = [PlaidItemPublicTokenExchange "public";
          PlaidAccountsGet "token1";
          PlaidProcessorTokenCreate "token1" "acct1" "dwolla";
          DwollaPost "on-demand-authorizations" NoBody;
          DwollaPost "customers/customer1/funding-sources"
            (FundingSourceBody "Checking" "processor1");
          CreateAdminClient;
          CreateBankDocument
            (mkBankDocData "user1" "item1" "acct1" "token1"
               "https://api.dwolla.com/funding-sources/1" "acct1");
          RevalidatePath "/"].
Proof.
  apply (X14_exchangePublicToken_completes_whatever_the_store_does
           Stubs.storeDown "public" Scenario.linkUser emptyWorld
           (mkTokenExchangeResponse "token1" "item1")
           (Scenario.plaidAccountOf "1" 100) [] (Some "ins_1") "processor1"
           (mkDwollaResponse (Some "https://api.dwolla.com/funding-sources/1")
              (Some (Some "links")))
           "https://api.dwolla.com/funding-sources/1").
  - intros h. reflexivity.
  - intros h. reflexivity.
  - intros h. reflexivity.
  - intros h path name token. reflexivity.
  - reflexivity.
  - discriminate.
Defined.

(** ** The session of the signed-in user *)

Lemma cookies_get_deleted (name : string) (w : World) :
  cookies_get name
    (mkWorld (trace w) (console w)
       (filter (fun kv => negb (String.eqb (fst kv) name)) (cookieJar w)))
  = None.
Proof.
  unfold cookies_get. cbn [cookieJar].
  induction (cookieJar w) as [|kv jar IH]; cbn.
  - reflexivity.
  - destruct (String.eqb (fst kv) name) eqn:E; cbn.
    + exact IH.
    + rewrite E. exact IH.
Qed.

Section Session.
Variable env : Env.
Variable senv : SessionEnv.

(** X15.  [logoutAccount] never throws.  When the session client can be
    created it removes the session cookie first and then asks Appwrite to
    delete the current session, whose failure is ignored: the cookie is
    gone either way.  When the session client cannot be created nothing
    happens: the cookie stays and no call is made. *)
Theorem X15_logout_removes_the_cookie (w : World) :
  exists w',
    SessionActions.logoutAccount env senv w = (Return tt, w')
    /\ match appwrite_createSessionClient senv (trace w) with
       | Ok _ =>
           cookies_get "appwrite-session" w' = None
           /\ trace w' = trace w ++ [AccountDeleteSession "current"]
       | Err _ => w' = w
       end.
Proof.
  unfold SessionActions.logoutAccount, SessionActions.createSessionClient, consult,
    cookies_delete.
  unfold_monad.
  destruct (appwrite_createSessionClient senv (trace w)) as [[]|e]; cbn.
  - destruct (account_deleteSession env (trace w) "current") as [[]|e]; cbn;
      (eexists; split; [reflexivity|]; split;
       [apply (cookies_get_deleted "appwrite-session"
                 (mkWorld (trace w ++ [AccountDeleteSession "current"])
                    (console w) (cookieJar w)))
       | reflexivity]).
  - exists w. split; [reflexivity|]. now destruct w.
Qed.

(** X16.  [getLoggedInUser] and [createLinkToken] never throw.
    [getLoggedInUser] returns the first profile document listed for the
    account behind the session, and [null] when there is no session, the
    account cannot be read, or no profile document is found;
    [createLinkToken] returns the link token, or [undefined] when Plaid
    fails. *)
Theorem X16_session_helpers_never_throw :
  (forall w : World,
     exists w',
       SessionActions.getLoggedInUser env senv w
       = (Return
            match appwrite_createSessionClient senv (trace w),
                  account_get env (trace w) with
            | Ok _, Ok result =>
                match appwrite_createAdminClient env (trace w ++ [AccountGet]),
                      database_listUserDocuments env
                        (trace w ++ [AccountGet; CreateAdminClient])
                        (au_id result) with
                | Ok _, Ok (doc :: _) => Some doc
                | _, _ => None
                end
            | _, _ => None
            end, w'))
  /\ (forall (user : UserDoc) (w : World),
        exists w',
          SessionActions.createLinkToken senv user w
          = (Return
               match plaid_linkTokenCreate senv (trace w) (user_id user)
                       (firstName (ud_userData (user_data user)) ++ " "
                        ++ lastName (ud_userData (user_data user))) with
               | Ok link_token => Some link_token
               | Err _ => None
               end, w')).
Proof.
  split; intros;
    unfold SessionActions.getLoggedInUser, SessionActions.createLinkToken,
      SessionActions.createSessionClient, consult, UserActions.getUserInfo,
      UserActions.createAdminClient, parseStringify;
    unfold_monad;
    repeat (split_on_answer; cbn in * );
    rewrite <- ?app_assoc in *; cbn [app] in *;
    repeat match goal with
           | H : ?x = _, H' : ?x = _ |- _ => rewrite H in H'; inversion H'; subst; clear H'
           end;
    eauto.
Qed.

End Session.

(** ** Transactions and accounts *)

Section BankMore.
Variable env : Env.

Lemma syncLoop_calls (accessToken : string) (fuel : nat) :
  forall (cursor : option string) (transactions : list BankActions.Transaction)
         (w : World),
  exists cursors,
    trace (snd (BankActions.syncLoop env fuel accessToken cursor transactions w))
    = trace w ++ List.map (PlaidTransactionsSync accessToken) cursors
    /\ (List.length cursors <= fuel)%nat.
Proof.
  induction fuel as [|fuel IH]; intros cursor transactions w.
  - exists []. cbn. rewrite app_nil_r. auto.
  - cbn [BankActions.syncLoop].
    unfold bind at 1. unfold invoke at 1.
    destruct (plaid_transactionsSync env (trace w) accessToken _) as [page|e].
    + set (w0 := mkWorld _ (console w) (cookieJar w)).
      destruct (has_more page), (added page) as [entries|];
        unfold bind, ret, console_error; cbn [trace console cookieJar].
      * destruct (IH (Some (next_cursor page))
                    (transactions ++ List.map BankActions.normalize entries) w0)
          as (cursors & Htrace & Hlen).
        eexists (_ :: cursors). rewrite Htrace. subst w0. cbn [trace].
        rewrite <- app_assoc. split; [reflexivity | cbn; lia].
      * match goal with
        | |- context [BankActions.syncLoop env fuel accessToken ?c ?t ?w1] =>
            destruct (IH c t w1) as (cursors & Htrace & Hlen)
        end.
        eexists (_ :: cursors). rewrite Htrace. subst w0. cbn [trace].
        rewrite <- app_assoc. split; [reflexivity | cbn; lia].
      * eexists [_]. subst w0. cbn. split; [reflexivity | lia].
      * eexists [_]. subst w0. cbn. split; [reflexivity | lia].
    + eexists [_]. cbn. split; [reflexivity | lia].
Qed.

Lemma getTransactions_run (fuel : nat) (accessToken : string) (w : World) :
  exists o w' cursors,
    BankActions.getTransactions env fuel accessToken w = (o, w')
    /\ (forall e, o <> Throw e)
    /\ trace w' = trace w ++ List.map (PlaidTransactionsSync accessToken) cursors
    /\ (List.length cursors <= fuel)%nat.
Proof.
  unfold BankActions.getTransactions.
  destruct (falsy accessToken).
  - unfold_monad. cbn. eexists; eexists; exists [].
    split; [reflexivity|]. split; [discriminate|]. cbn.
    rewrite app_nil_r. split; [reflexivity | lia].
  - unfold try_catch, bind.
    destruct (syncLoop_calls accessToken fuel None [] w) as (cursors & Htrace & Hlen).
    destruct (BankActions.syncLoop env fuel accessToken None [] w)
      as [[transactions|e|] w1]; cbn [snd] in Htrace.
    + unfold ret. eexists; eexists; exists cursors.
      split; [reflexivity|]. split; [discriminate|]. auto.
    + destruct (getTransactions_catch_returns_empty e w1) as (w2 & Hcatch & Hw2).
      rewrite Hcatch. eexists; eexists; exists cursors.
      split; [reflexivity|]. split; [discriminate|]. rewrite Hw2. auto.
    + eexists; eexists; exists cursors.
      split; [reflexivity|]. split; [discriminate|]. auto.
Qed.

(** X17.  [getTransactions] never throws, whatever the provider answers:
    it returns a list, unless the provider keeps asking for more pages (the
    run is then out of fuel).  The only calls it issues are sync requests
    with the access token it was given, one per page. *)
Theorem X17_getTransactions_never_throws
    (fuel : nat) (accessToken : string) (w : World) :
  match fst (BankActions.getTransactions env fuel accessToken w) with
  | Throw _ => False
  | _ => True
  end
  /\ exists cursors,
       trace (snd (BankActions.getTransactions env fuel accessToken w))
       = trace w ++ List.map (PlaidTransactionsSync accessToken) cursors
       /\ (List.length cursors <= fuel)%nat.
Proof.
  destruct (getTransactions_run fuel accessToken w)
    as (o & w' & cursors & Hrun & Hthrow & Htrace & Hlen).
  rewrite Hrun. cbn [fst snd]. split.
  - destruct o as [txs|e|]; trivial. now apply (Hthrow e).
  - eauto.
Qed.

Lemma getTransactions_does_not_throw (fuel : nat) (accessToken : string)
    (w w' : World) (e : JsError) :
  BankActions.getTransactions env fuel accessToken w <> (Throw e, w').
Proof.
  destruct (getTransactions_run fuel accessToken w)
    as (o & w1 & cursors & Hrun & Hthrow & _).
  rewrite Hrun. intros H. inversion H; subst. now apply (Hthrow e).
Qed.


(** X19.  When the bank documents cannot be listed - the admin client or
    the listing fails - [getAccounts] returns [undefined] and asks the
    bank-data provider nothing. *)
Theorem X19_getAccounts_without_the_listing (userId : string) (w : World) :
  (exists e, forall h, appwrite_createAdminClient env h = Err e)
  \/ (exists e, forall h, database_listBankDocuments env h "userId" userId = Err e) ->
  exists w' calls,
    BankActions.getAccounts env userId w = (Return None, w')
    /\ trace w' = trace w ++ calls
    /\ Forall (fun c => readsBankData c = false) calls.
Proof.
  intros [[e H]|[e H]];
    unfold BankActions.getAccounts, UserActions.getBanks,
      UserActions.createAdminClient;
    unfold_monad; cbn;
    repeat run_step H;
    (eexists; eexists; split; [reflexivity|]; split;
     [cbn; rewrite <- ?app_assoc; reflexivity | repeat constructor]).
Qed.

End BankMore.

Lemma X19_listing_down_example :
  exists w' calls,
    BankActions.getAccounts
      (Stubs.withListBankDocuments (Err Scenario.offline) Scenario.everyFetchSucceeds)
      "user1" emptyWorld = (Return None, w')
    /\ trace w' = trace emptyWorld ++ calls
    /\ Forall (fun c => readsBankData c = false) calls.
Proof.
  apply X19_getAccounts_without_the_listing.
  right. exists Scenario.offline. intros h. reflexivity.
Defined.

Section AccountMore.
Variable env : Env.

(** X20.  [getAccount] returns [null] and asks neither Plaid nor the
    transfer records anything when it has no usable bank document: the
    admin client or the lookup fails, no document has the id, or the
    document has an empty access token. *)
Theorem X20_getAccount_without_a_bank
    (fuel : nat) (appwriteItemId : string) (w : World) :
  (exists e, forall h, appwrite_createAdminClient env h = Err e)
  \/ (exists e, forall h,
         database_listBankDocuments env h "$id" appwriteItemId = Err e)
  \/ (forall h, database_listBankDocuments env h "$id" appwriteItemId = Ok [])
  \/ (exists bank others,
         (forall h, database_listBankDocuments env h "$id" appwriteItemId
                    = Ok (bank :: others))
         /\ accessToken bank = "") ->
  exists w' calls,
    BankActions.getAccount env fuel appwriteItemId w = (Return None, w')
    /\ trace w' = trace w ++ calls
    /\ Forall (fun c => readsBankData c = false) calls.
Proof.
  intros [[e H]|[[e H]|[H|(bank & others & H & Htoken)]]];
    unfold BankActions.getAccount, UserActions.getBank,
      UserActions.createAdminClient, parseStringify;
    unfold accessToken in *;
    unfold_monad; cbn;
    repeat (first [rewrite H | rewrite Htoken | split_on_answer]; cbn);
    (eexists; eexists; split; [reflexivity|]; split;
     [cbn; rewrite <- ?app_assoc; reflexivity | repeat constructor]).
Qed.

Lemma getTransactions_sync_down (fuel : nat) (token : string) (e : JsError)
    (w : World) :
  (forall h cursor, plaid_transactionsSync env h token cursor = Err e) ->
  falsy token = false ->
  exists w', BankActions.getTransactions env (S fuel) token w = (Return [], w').
Proof.
  intros Hsync Htoken.
  assert (Hserves : serves env token w [Err e]).
  { intros h cursor k answer _ Hk. rewrite Hsync.
    destruct k as [|k]; cbn in Hk; [congruence|]. destruct k; discriminate Hk. }
  destruct (syncLoop_failure env token e fuel w None [] [] Hserves)
    as (w1 & Hrun & _).
  destruct (getTransactions_catch_returns_empty e w1) as (w2 & Hcatch & _).
  exists w2. unfold BankActions.getTransactions. rewrite Htoken.
  unfold try_catch, bind at 1. now rewrite Hrun.
Qed.

(** X21.  A failing transaction sync does not fail [getAccount]: with the
    bank document, the account, the institution and the transfer records
    at hand, it returns the account, and the feed holds the transfer
    records alone, sorted like any feed. *)
Theorem X21_getAccount_survives_a_failed_sync
    (fuel : nat) (appwriteItemId : string) (w : World)
    (bank : Bank) (otherBanks : list Bank)
    (accountData : PlaidAccount) (others : list PlaidAccount)
    (institutionId : option string) (institution : Institution)
    (transfers : list TransferDoc) (e : JsError) :
  (forall h, appwrite_createAdminClient env h = Ok tt) ->
  (forall h, database_listBankDocuments env h "$id" appwriteItemId
             = Ok (bank :: otherBanks)) ->
  accessToken bank <> "" ->
  (forall h, plaid_accountsGet env h (accessToken bank)
             = Ok (mkAccountsGetResponse (accountData :: others) institutionId)) ->
  (forall h, transactions_byBankId env h (bank_id bank) = Ok transfers) ->
  (forall h, plaid_institutionsGetById env h institutionId = Ok institution) ->
  (forall h cursor, plaid_transactionsSync env h (accessToken bank) cursor = Err e) ->
  exists w',
    BankActions.getAccount env (S fuel) appwriteItemId w
    = (Return
         (Some (BankActions.mkAccountResult
                  (BankActions.accountOf accountData institution (bank_id bank) None)
                  (BankActions.allTransactions env []
                     (List.map (BankActions.transferOf bank) transfers)))),
       w').
Proof.
  intros Hadmin Hbank Htoken Haccounts Htransfers Hinstitution Hsync.
  pose proof (falsy_nonempty _ Htoken) as Hfalsy.
  unfold BankActions.getAccount, UserActions.getBank,
    UserActions.createAdminClient, BankActions.getInstitution, parseStringify.
  unfold_monad.
  rewrite Hadmin. cbn -[falsy BankActions.getTransactions BankActions.allTransactions].
  rewrite Hbank. cbn -[falsy BankActions.getTransactions BankActions.allTransactions].
  rewrite Hfalsy, Haccounts.
  cbn -[falsy BankActions.getTransactions BankActions.allTransactions].
  rewrite Htransfers.
  cbn -[falsy BankActions.getTransactions BankActions.allTransactions].
  rewrite Hinstitution.
  cbn -[falsy BankActions.getTransactions BankActions.allTransactions].
  match goal with
  | |- context [BankActions.getTransactions env (S fuel) ?t ?w0] =>
      destruct (getTransactions_sync_down fuel t e w0 Hsync Hfalsy) as (w1 & Hrun);
      rewrite Hrun
  end.
  eauto.
Qed.

End AccountMore.

Lemma X20_unknown_bank_example :
  exists w' calls,
    BankActions.getAccount Scenario.profileMissing 3 "bank7" emptyWorld
    = (Return None, w')
    /\ trace w' = trace emptyWorld ++ calls
    /\ Forall (fun c => readsBankData c = false) calls.
Proof.
  apply X20_getAccount_without_a_bank.
  right; right; left. intros h. reflexivity.
Defined.

(** One bank, two transfers, the sync out of reach: the feed is the two
    transfers, the later one first. *)
Lemma X21_sync_down_example :
  exists w',
    BankActions.getAccount Stubs.syncDown 1 "bank1" emptyWorld
    = (Return
         (Some (BankActions.mkAccountResult
                  (BankActions.accountOf (Scenario.plaidAccountOf "1" 100)
                     (mkInstitution "ins_1" "Institution") "bank1" None)
                  [BankActions.Transfer
                     (BankActions.transferOf (Scenario.bankOf "1")
                        (Stubs.transferOf "2" "bank9" "bank1"
                           "2024-01-07T10:00:00.000+00:00"));
                   BankActions.Transfer
                     (BankActions.transferOf (Scenario.bankOf "1")
                        (Stubs.transferOf "1" "bank1" "bank9"
                           "2024-01-02T10:00:00.000+00:00"))])),
       w').
Proof.
  apply (X21_getAccount_survives_a_failed_sync Stubs.syncDown 0 "bank1" emptyWorld
           (Scenario.bankOf "1") [] (Scenario.plaidAccountOf "1" 100) []
           (Some "ins_1") (mkInstitution "ins_1" "Institution")
           [Stubs.transferOf "1" "bank1" "bank9" "2024-01-02T10:00:00.000+00:00";
            Stubs.transferOf "2" "bank9" "bank1" "2024-01-07T10:00:00.000+00:00"]
           Scenario.offline).
  - intros h. reflexivity.
  - intros h. reflexivity.
  - discriminate.
  - intros h. reflexivity.
  - intros h. reflexivity.
  - intros h. reflexivity.
  - intros h cursor. reflexivity.
Defined.

(** ** The transaction-history page *)

Section Pagination.
Context {A : Type}.

Lemma firstn_add (a b : nat) (l : list A) :
  firstn (a + b) l = firstn a l ++ firstn b (skipn a l).
Proof.
  revert l. induction a as [|a IH]; intros l; cbn.
  - reflexivity.
  - destruct l as [|x l]; cbn.
    + now rewrite firstn_nil.
    + now rewrite IH.
Qed.

Lemma firstn_min_length (n : nat) (l : list A) :
  firstn (Nat.min n (List.length l)) l = firstn n l.
Proof.
  destruct (Nat.le_ge_cases n (List.length l)) as [H|H].
  - now rewrite Nat.min_l.
  - rewrite Nat.min_r by assumption.
    now rewrite firstn_all, firstn_all2.
Qed.

(** The rows of page [n + 1]: ten rows after the first [10 * n]. *)
Lemma currentTransactionsOf_page (l : list A) (n : nat) :
  TransactionHistoryPage.currentTransactionsOf l (Z.of_nat (S n))
  = firstn 10 (skipn (10 * n) l).
Proof.
  unfold TransactionHistoryPage.currentTransactionsOf,
    TransactionHistoryPage.slice, TransactionHistoryPage.relativeIndex,
    TransactionHistoryPage.rowsPerPage.
  destruct (Z.ltb_spec (Z.of_nat (S n) * 10 - 10) 0) as [H|_]; [lia|].
  destruct (Z.ltb_spec (Z.of_nat (S n) * 10) 0) as [H|_]; [lia|].
  replace (Z.to_nat (Z.of_nat (S n) * 10 - 10)) with (10 * n)%nat by lia.
  replace (Z.to_nat (Z.of_nat (S n) * 10)) with (10 * n + 10)%nat by lia.
  destruct (Nat.le_ge_cases (List.length l) (10 * n)) as [Hlen|Hlen].
  - rewrite !Nat.min_r by lia. rewrite Nat.sub_diag.
    rewrite !skipn_all2 by lia. now rewrite !firstn_nil.
  - rewrite (Nat.min_l (10 * n)) by assumption.
    rewrite <- (firstn_min_length 10 (skipn (10 * n) l)).
    rewrite length_skipn. f_equal. lia.
Qed.

Lemma pages_cover (l : list A) (n : nat) :
  List.concat
    (List.map (fun k => firstn 10 (skipn (10 * k) l)) (seq 0 n))
  = firstn (10 * n) l.
Proof.
  induction n as [|n IH].
  - reflexivity.
  - rewrite seq_S, map_app, concat_app, IH. cbn [List.map List.concat Nat.add].
    rewrite app_nil_r.
    replace (10 * S n)%nat with (10 * n + 10)%nat by lia.
    now rewrite firstn_add.
Qed.

Lemma totalPages_cover (l : list A) :
  (List.length l
   <= 10 * Z.to_nat (TransactionHistoryPage.totalPagesOf l)
   < List.length l + 10)%nat.
Proof.
  unfold TransactionHistoryPage.totalPagesOf, TransactionHistoryPage.rowsPerPage.
  pose proof (Z.div_mod (Z.of_nat (List.length l) + 10 - 1) 10 ltac:(lia)) as Hdiv.
  pose proof (Z.mod_pos_bound (Z.of_nat (List.length l) + 10 - 1) 10 ltac:(lia))
    as Hmod.
  lia.
Qed.

(** X22.  The pages of the transaction history partition the feed: the
    rows of the pages 1 to [totalPages], put one after the other, are the
    transactions, each once and in order.  No page has more than ten rows,
    every page after the last is empty, and the pagination is shown exactly
    when there are more than ten transactions. *)
Theorem X22_pages_partition_the_feed (transactions : list A) :
  List.concat
    (List.map (TransactionHistoryPage.currentTransactionsOf transactions)
       (pageNumbers (TransactionHistoryPage.totalPagesOf transactions)))
  = transactions
  /\ (forall page : Z,
        (List.length
           (TransactionHistoryPage.currentTransactionsOf transactions page)
         <= 10)%nat)
  /\ (forall beyond : nat,
        TransactionHistoryPage.currentTransactionsOf transactions
          (TransactionHistoryPage.totalPagesOf transactions
           + Z.of_nat (S beyond))
        = [])
  /\ (1 <? TransactionHistoryPage.totalPagesOf transactions)%Z
     = (10 <? List.length transactions)%nat.
Proof.
  pose proof (totalPages_cover transactions) as Hcover.
  split; [|split; [|split]].
  - unfold pageNumbers. rewrite map_map.
    rewrite (map_ext _ (fun k => firstn 10 (skipn (10 * k) transactions)))
      by (intros k; apply currentTransactionsOf_page).
    rewrite pages_cover. apply firstn_all2. lia.
  - intros page.
    unfold TransactionHistoryPage.currentTransactionsOf,
      TransactionHistoryPage.slice, TransactionHistoryPage.relativeIndex,
      TransactionHistoryPage.rowsPerPage.
    etransitivity; [apply firstn_le_length|].
    destruct (Z.ltb_spec (page * 10 - 10) 0), (Z.ltb_spec (page * 10) 0); lia.
  - intros beyond.
    assert (Hpages : (0 <= TransactionHistoryPage.totalPagesOf transactions)%Z).
    { unfold TransactionHistoryPage.totalPagesOf, TransactionHistoryPage.rowsPerPage.
      apply Z.div_pos; lia. }
    replace (TransactionHistoryPage.totalPagesOf transactions + Z.of_nat (S beyond))%Z
      with (Z.of_nat
              (S (Z.to_nat (TransactionHistoryPage.totalPagesOf transactions)
                  + beyond))) by lia.
    rewrite currentTransactionsOf_page.
    rewrite skipn_all2 by lia. reflexivity.
  - destruct (Z.ltb_spec 1 (TransactionHistoryPage.totalPagesOf transactions)),
      (Nat.ltb_spec 10 (List.length transactions));
      trivial; exfalso;
      assert (0 <= TransactionHistoryPage.totalPagesOf transactions)%Z
        by (unfold TransactionHistoryPage.totalPagesOf,
              TransactionHistoryPage.rowsPerPage; apply Z.div_pos; lia);
      lia.
Qed.

End Pagination.

Section Page.
Variable env : Env.
Variable senv : SessionEnv.

(** X23.  The transaction-history page does not handle a visitor who is
    not signed in: when there is no session, or the account behind it
    cannot be read, [getLoggedInUser] returns [null] and the page throws
    on reading its [$id], before it asks for any bank. *)
Theorem X23_page_throws_without_a_user
    (fuel : nat) (id : option string) (page : option Z) (w : World) :
  (exists e, forall h, appwrite_createSessionClient senv h = Err e)
  \/ (exists e, forall h, account_get env h = Err e) ->
  exists w' calls,
    TransactionHistoryPage.TransactionHistory env senv fuel id page w
    = (Throw (TypeError "Cannot read properties of null (reading '$id')"), w')
    /\ trace w' = trace w ++ calls
    /\ Forall (fun c => c = AccountGet) calls.
Proof.
  intros [[e H]|[e H]];
    unfold TransactionHistoryPage.TransactionHistory,
      SessionActions.getLoggedInUser, SessionActions.createSessionClient, consult;
    unfold_monad;
    repeat (first [rewrite H | split_on_answer];
            cbn -[UserActions.getUserInfo BankActions.getAccounts]);
    (eexists; eexists; split; [reflexivity|]; split;
     [cbn; first [reflexivity | symmetry; apply app_nil_r]
     | repeat constructor]).
Qed.

(** X24.  For a signed-in user who has linked no bank and opens the page
    without an [id], the page shows "No account selected" after listing the
    banks once - by the [$id] of the profile document - and asks neither
    for an account nor for transactions. *)
Theorem X24_page_without_banks
    (fuel : nat) (id : option string) (page : option Z) (w : World)
    (account : AppwriteUser) (profile : UserDoc) (profiles : list UserDoc) :
  (forall h, appwrite_createSessionClient senv h = Ok tt) ->
  (forall h, account_get env h = Ok account) ->
  (forall h, appwrite_createAdminClient env h = Ok tt) ->
  (forall h, database_listUserDocuments env h (au_id account)
             = Ok (profile :: profiles)) ->
  (forall h, database_listBankDocuments env h "userId" (user_id profile) = Ok []) ->
  truthy id = None ->
  exists w',
    TransactionHistoryPage.TransactionHistory env senv fuel id page w
    = (Return TransactionHistoryPage.NoAccountSelected, w')
    /\ trace w'
       = trace w ++ [AccountGet;
                     CreateAdminClient;
                     ListUserDocuments (au_id account);
                     CreateAdminClient;
                     ListBankDocuments "userId" (user_id profile)].
Proof.
  intros Hsession Haccount Hadmin Hprofile Hbanks Hid.
  unfold TransactionHistoryPage.TransactionHistory,
    SessionActions.getLoggedInUser, SessionActions.createSessionClient, consult,
    UserActions.getUserInfo, BankActions.getAccounts, UserActions.getBanks,
    UserActions.createAdminClient, Promise_all, parseStringify.
  unfold_monad.
  repeat first
    [ rewrite Hsession | rewrite Haccount | rewrite Hadmin | rewrite Hprofile
    | rewrite Hbanks | rewrite Hid
    | progress cbn -[truthy] ].
  eexists. split; [reflexivity|].
  cbn. now rewrite <- !app_assoc.
Qed.

End Page.

Lemma X23_signed_out_example :
  exists w' calls,
    TransactionHistoryPage.TransactionHistory Stubs.noBanks Stubs.signedOut 3
      None None emptyWorld
    = (Throw (TypeError "Cannot read properties of null (reading '$id')"), w')
    /\ trace w' = trace emptyWorld ++ calls
    /\ Forall (fun c => c = AccountGet) calls.
Proof.
  apply X23_page_throws_without_a_user.
  left. exists (Error "No session"). intros h. reflexivity.
Defined.

Lemma X24_no_banks_example :
  exists w',
    TransactionHistoryPage.TransactionHistory Stubs.noBanks Stubs.signedIn 3
      None (Some 2%Z) emptyWorld
    = (Return TransactionHistoryPage.NoAccountSelected, w')
    /\ trace w'
       = [AccountGet; CreateAdminClient; ListUserDocuments "principal1";
          CreateAdminClient; ListBankDocuments "userId" "doc1"].
Proof.
  apply (X24_page_without_banks Stubs.noBanks Stubs.signedIn 3 None (Some 2%Z)
           emptyWorld Stubs.ada Stubs.adaDoc []).
  - intros h. reflexivity.
  - intros h. reflexivity.
  - intros h. reflexivity.
  - intros h. reflexivity.
  - intros h. reflexivity.
  - reflexivity.
Defined.
